(** * Interlink matcher: the [/match] pipeline of [main.py]

    A shallow embedding of [match_internships]: profile lookup, the three
    listing sources (the Supabase catalog, JSearch, Adzuna), concatenation,
    [drop_duplicates], TF-IDF scoring and the final [sort_values / head].

    Conventions of the embedding.
    - Texts are ASCII strings ([is_ascii]); [lower] and [tokenize] are
      Python's [str.lower] and scikit-learn's token pattern on them, and
      leave any other character alone.
    - Every outbound call (Supabase query, HTTP GET) is answered by the
      collaborators and recorded, in program order, in a trace of [call]s.
      The endpoint runs against a [backend], whose rows are as the
      datastore returns them: a column of skills may be null.  A [world]
      is a backend whose skill columns all hold lists ([as_backend]).
    - A JSON field read with [dict.get] is a [jvalue]: absent, null or a
      string; a list-valued one is a [jlist].
    - Similarity scores are rationals (every finite double is one).
    - Three pieces of library code are taken as Section variables:
      scikit-learn's English stop-word table, the numeric TF-IDF/cosine
      kernel, and numpy's [argsort(kind="quicksort")]. *)

From Stdlib Require Import List String Ascii Bool Arith ZArith QArith Lia.
From Stdlib Require Import Permutation Sorted DecimalString.
Import ListNotations.

Local Open Scope string_scope.
Local Open Scope list_scope.

(** ** Python string helpers *)

(** [str.lower] on one ASCII character; any other character is left as
    it is (texts with such characters are outside the embedding). *)
Definition lower_ascii (c : ascii) : ascii :=
  let n := nat_of_ascii c in
  if (65 <=? n)%nat && (n <=? 90)%nat then ascii_of_nat (n + 32) else c.

Fixpoint lower (s : string) : string :=
  match s with
  | EmptyString => EmptyString
  | String c rest => String (lower_ascii c) (lower rest)
  end.

(** [sep.join(parts)] *)
Definition join (sep : string) (parts : list string) : string :=
  String.concat sep parts.

(** [s or default] on strings: the empty string is falsy. *)
Definition str_or (s default : string) : string :=
  match s with EmptyString => default | _ => s end.

(** [x or ""] on a cell that may hold [None]. *)
Definition or_empty (x : option string) : string :=
  match x with Some s => s | None => "" end.

(** Truthiness of an environment variable read with [os.getenv]. *)
Definition truthy (v : option string) : bool :=
  match v with
  | None => false
  | Some EmptyString => false
  | Some _ => true
  end.

(** [str(n)] for a non-negative integer. *)
Definition str_of_nat (n : nat) : string :=
  NilEmpty.string_of_uint (Nat.to_uint n).

(** ** JSON fields and [dict.get] *)

Inductive jvalue : Type :=
| JAbsent
| JNull
| JStr (s : string).

(** [d.get(key, default)]: the default only replaces a missing key. *)
Definition dict_get (v : jvalue) (default : string) : option string :=
  match v with
  | JAbsent => Some default
  | JNull => None
  | JStr s => Some s
  end.

(** The rendering of an optional cell inside an f-string. *)
Definition fstr (x : option string) : string :=
  match x with Some s => s | None => "None" end.

(** ** Data model *)

(** A list-valued field of a profile, read with [dict.get(key, [])]. *)
Inductive jlist : Type :=
| LAbsent                        (* no such key: the default [[]] is read *)
| LNull                          (* null: [None] is read *)
| LList (l : list string).

(** The profile as Supabase returns it. *)
Record student_row : Type := {
  skills_field : jlist;          (* student.get("skills", []) *)
  bio_field : option string      (* student.get("bio") *)
}.

(** A catalog row as Supabase returns it.  The query names the four
    columns, so each is present; a column may hold null. *)
Record internship_row : Type := {
  id_field : string;
  title_field : option string;
  description_field : option string;
  required_skills_field : option (list string)
}.

(** The profile once line 63 has joined its skills: they are a list. *)
Record student_record : Type := {
  skills : list string;
  bio : option string
}.

(** A catalog row whose required skills the text lambda (line 82) can
    join: they are a list. *)
Record catalog_row : Type := {
  row_id : string;
  row_title : option string;
  row_description : option string;
  row_required_skills : list string
}.

(** What [str.join] is given for the skills: [None] for a null field. *)
Definition joinable (v : jlist) : option (list string) :=
  match v with
  | LAbsent => Some []
  | LNull => None
  | LList l => Some l
  end.

Definition profile_of (student : student_row) : option student_record :=
  match joinable (skills_field student) with
  | Some l => Some {| skills := l; bio := bio_field student |}
  | None => None
  end.

Definition typed_row (x : internship_row) : option catalog_row :=
  match required_skills_field x with
  | Some l => Some {| row_id := id_field x;
                      row_title := title_field x;
                      row_description := description_field x;
                      row_required_skills := l |}
  | None => None
  end.

(** The rows, when every one of them has a list of required skills. *)
Fixpoint typed_rows (data : list internship_row) : option (list catalog_row) :=
  match data with
  | [] => Some []
  | x :: rest =>
      match typed_row x, typed_rows rest with
      | Some r, Some rs => Some (r :: rs)
      | _, _ => None
      end
  end.

Definition as_student_row (student : student_record) : student_row :=
  {| skills_field := LList (skills student); bio_field := bio student |}.

Definition as_internship_row (x : catalog_row) : internship_row :=
  {| id_field := row_id x;
     title_field := row_title x;
     description_field := row_description x;
     required_skills_field := Some (row_required_skills x) |}.

Record jsearch_job : Type := {
  job_id : jvalue;
  job_title : jvalue;
  job_description : jvalue;
  job_apply_link : jvalue
}.

Record adzuna_job : Type := {
  adz_id : jvalue;
  adz_title : jvalue;
  adz_description : jvalue;
  adz_redirect_url : jvalue
}.

Inductive source_tag : Type :=
| supabase
| external_jsearch
| external_adzuna.

(** One dict of [jsearch_list] / [adzuna_list]. *)
Record listing : Type := {
  l_id : option string;
  l_title : option string;
  l_description : option string;
  l_url : option string;
  l_required_skills : list string;
  l_source : source_tag
}.

(** One row of the data frames [internal_df], [external_df],
    [all_internships]. *)
Record internship : Type := {
  id : option string;
  title : option string;
  description : option string;
  required_skills : list string;
  source : source_tag;
  url : option string;
  text : string
}.

(** One record of the returned [matches]. *)
Record match_record : Type := {
  m_id : option string;
  m_title : option string;
  m_description : option string;
  m_similarity : Q;
  m_source : source_tag;
  m_url : option string
}.

(** ** The outside world *)

Inductive db_result (A : Type) : Type :=
| DbRaise (e : string)            (* the query raised; [e] is [str(e)] *)
| DbData (data : list A).         (* [.data], with [None] read as [[]] *)
Arguments DbRaise {A} e.
Arguments DbData {A} data.

Inductive http_result (A : Type) : Type :=
| HttpRaise (e : string)          (* timeout, connection error, bad JSON *)
| HttpResponse (status_code : Z) (items : list A).
Arguments HttpRaise {A} e.
Arguments HttpResponse {A} status_code items.

Record adzuna_params : Type := {
  app_id : string;
  app_key : string;
  results_per_page : Z;
  what : string;
  where_ : string
}.

Inductive call : Type :=
| students_select_eq_id (student_id : string)
| internships_select
| jsearch_get (jsearch_url : string)
| adzuna_get (params : adzuna_params).

(** The environment and the answers of the collaborators, for a given
    shape of profile and of catalog row. *)
Record collaborators (Student Row : Type) : Type := {
  RAPIDAPI_KEY : option string;
  ADZUNA_APP_ID : option string;
  ADZUNA_APP_KEY : option string;
  respond_students : string -> db_result Student;
  respond_internships : db_result Row;
  respond_jsearch : string -> http_result jsearch_job;
  respond_adzuna : adzuna_params -> http_result adzuna_job
}.
Arguments Build_collaborators {Student Row}.
Arguments RAPIDAPI_KEY {Student Row} c.
Arguments ADZUNA_APP_ID {Student Row} c.
Arguments ADZUNA_APP_KEY {Student Row} c.
Arguments respond_students {Student Row} c.
Arguments respond_internships {Student Row} c.
Arguments respond_jsearch {Student Row} c.
Arguments respond_adzuna {Student Row} c.

(** What the endpoint runs against. *)
Definition backend : Type := collaborators student_row internship_row.

(** A backend none of whose skill columns is null. *)
Definition world : Type := collaborators student_record catalog_row.

Definition map_db {A B : Type} (f : A -> B) (r : db_result A) : db_result B :=
  match r with
  | DbRaise e => DbRaise e
  | DbData data => DbData (map f data)
  end.

Definition as_backend (w : world) : backend :=
  {| RAPIDAPI_KEY := RAPIDAPI_KEY w;
     ADZUNA_APP_ID := ADZUNA_APP_ID w;
     ADZUNA_APP_KEY := ADZUNA_APP_KEY w;
     respond_students :=
       fun student_id => map_db as_student_row (respond_students w student_id);
     respond_internships := map_db as_internship_row (respond_internships w);
     respond_jsearch := respond_jsearch w;
     respond_adzuna := respond_adzuna w |}.

(** ** What the endpoint hands back *)

Inductive exception : Type :=
| ValueError (msg : string)
| TypeError (msg : string).

(** What [" ".join(None)] raises. *)
Definition cannot_join : exception :=
  TypeError "can only join an iterable".

Inductive outcome : Type :=
| error_payload (msg : string)                 (* return {"error": msg} *)
| uncaught (exn : exception)                   (* leaves the function *)
| matched (student_id : string) (matches_found : nat)
          (matches : list match_record).

Definition ProfileNotFound (student_id : string) : outcome :=
  error_payload ("No student found with id " ++ student_id).

Definition ProfileDatabaseError (e : string) : outcome :=
  error_payload ("Database error fetching student: " ++ e).

Definition NoCandidates : outcome :=
  error_payload "No internships found (Supabase + APIs)".

(** ** A small monad: a trace of calls and an early exit *)

Definition M (A : Type) : Type := list call -> (A + outcome) * list call.

Definition ret {A} (a : A) : M A := fun tr => (inl a, tr).

Definition bind {A B} (m : M A) (k : A -> M B) : M B :=
  fun tr =>
    match m tr with
    | (inl a, tr') => k a tr'
    | (inr o, tr') => (inr o, tr')
    end.

Definition perform (c : call) : M unit := fun tr => (inl tt, tr ++ [c]).

Definition exit_with {A} (o : outcome) : M A := fun tr => (inr o, tr).

Notation "x <- m ;; k" := (bind m (fun x => k))
  (at level 61, m at next level, right associativity).
Notation "m ;;; k" := (bind m (fun _ => k))
  (at level 61, right associativity).

Definition run (m : M outcome) : outcome * list call :=
  match m [] with
  | (inl o, tr) => (o, tr)
  | (inr o, tr) => (o, tr)
  end.

(** ** Section 3 of the source: the student profile *)

Definition fetch_student (b : backend) (student_id : string) : M student_row :=
  perform (students_select_eq_id student_id) ;;;
  match respond_students b student_id with
  | DbRaise e => exit_with (ProfileDatabaseError e)
  | DbData [] => exit_with (ProfileNotFound student_id)
  | DbData (student :: _) => ret student
  end.

(** Lines 62 to 64 join the skills, outside every [try]: a null field ends
    the request with a [TypeError]. *)
Definition read_profile (student : student_row) : M student_record :=
  match profile_of student with
  | Some profile => ret profile
  | None => exit_with (uncaught cannot_join)
  end.

Definition student_text (student : student_record) : string :=
  lower (join " " (skills student) ++ " " ++ or_empty (bio student)).

(** ** Section 4: internal internships (Supabase) *)

Definition internal_row (x : catalog_row) : internship :=
  {| id := Some (row_id x);
     title := row_title x;
     description := row_description x;
     required_skills := row_required_skills x;
     source := supabase;
     url := Some "";
     text := lower (or_empty (row_title x) ++ " " ++
                    or_empty (row_description x) ++ " " ++
                    join " " (row_required_skills x)) |}.

(** [internal_res.data or []], and [[]] when the query raised. *)
Definition internal_data {Student Row : Type} (c : collaborators Student Row)
  : list Row :=
  match respond_internships c with
  | DbRaise _ => []
  | DbData data => data
  end.

(** Lines 74 to 87.  The text lambda joins the required skills of every
    row, outside every [try]: a null among them ends the request with a
    [TypeError]. *)
Definition fetch_internal (b : backend) : M (list internship) :=
  perform internships_select ;;;
  match typed_rows (internal_data b) with
  | Some rows => ret (map internal_row rows)
  | None => exit_with (uncaught cannot_join)
  end.

(** ** Section 5: JSearch *)

Definition skills_query (student : student_record) : string :=
  str_or (join "+" (skills student)) "internship".

Definition jsearch_url (student : student_record) : string :=
  "https://jsearch.p.rapidapi.com/search?query=" ++ skills_query student ++
  "+internship&page=1&num_pages=1".

Definition jsearch_entry (n : nat) (job : jsearch_job) : listing :=
  {| l_id := dict_get (job_id job) ("j_" ++ str_of_nat n)%string;
     l_title := dict_get (job_title job) "Untitled";
     l_description := dict_get (job_description job) "";
     l_url := dict_get (job_apply_link job) "";
     l_required_skills := [];
     l_source := external_jsearch |}.

(** The [for job in ...: jsearch_list.append(...)] loop. *)
Fixpoint jsearch_append (jsearch_list : list listing) (jobs : list jsearch_job)
  : list listing :=
  match jobs with
  | [] => jsearch_list
  | job :: rest =>
      jsearch_append
        (jsearch_list ++ [jsearch_entry (List.length jsearch_list) job]) rest
  end.

Definition jsearch_items {Student Row : Type} (w : collaborators Student Row)
  (student : student_record) : list jsearch_job :=
  match respond_jsearch w (jsearch_url student) with
  | HttpRaise _ => []
  | HttpResponse status_code items =>
      if (status_code =? 200)%Z then firstn 10 items else []
  end.

Definition fetch_jsearch {Student Row : Type} (w : collaborators Student Row)
  (student : student_record) : M (list listing) :=
  if truthy (RAPIDAPI_KEY w) then
    perform (jsearch_get (jsearch_url student)) ;;;
    ret (jsearch_append [] (jsearch_items w student))
  else ret [].

(** ** Section 6: Adzuna *)

Definition adzuna_request {Student Row : Type} (w : collaborators Student Row)
  : adzuna_params :=
  {| app_id := or_empty (ADZUNA_APP_ID w);
     app_key := or_empty (ADZUNA_APP_KEY w);
     results_per_page := 10;
     what := "internship";
     where_ := "India" |}.

Definition adzuna_entry (n : nat) (job : adzuna_job) : listing :=
  {| l_id := Some ("adz_" ++ fstr (dict_get (adz_id job) (str_of_nat n)))%string;
     l_title := dict_get (adz_title job) "Untitled";
     l_description := dict_get (adz_description job) "";
     l_url := dict_get (adz_redirect_url job) "";
     l_required_skills := [];
     l_source := external_adzuna |}.

Fixpoint adzuna_append (adzuna_list : list listing) (jobs : list adzuna_job)
  : list listing :=
  match jobs with
  | [] => adzuna_list
  | job :: rest =>
      adzuna_append
        (adzuna_list ++ [adzuna_entry (List.length adzuna_list) job]) rest
  end.

Definition adzuna_items {Student Row : Type} (w : collaborators Student Row)
  : list adzuna_job :=
  match respond_adzuna w (adzuna_request w) with
  | HttpRaise _ => []
  | HttpResponse status_code items =>
      if (status_code =? 200)%Z then items else []
  end.

Definition fetch_adzuna {Student Row : Type} (w : collaborators Student Row)
  : M (list listing) :=
  if truthy (ADZUNA_APP_ID w) && truthy (ADZUNA_APP_KEY w) then
    perform (adzuna_get (adzuna_request w)) ;;;
    ret (adzuna_append [] (adzuna_items w))
  else ret [].

(** ** Section 7: combine and drop duplicates *)

Definition external_row (x : listing) : internship :=
  {| id := l_id x;
     title := l_title x;
     description := l_description x;
     required_skills := l_required_skills x;
     source := l_source x;
     url := l_url x;
     text := lower (or_empty (l_title x) ++ " " ++ or_empty (l_description x)) |}.

Definition external_df (external_list : list listing) : list internship :=
  map external_row external_list.

(** [pd.concat([internal_df, external_df], ignore_index=True)] *)
Definition concat_frames (internal_df external : list internship)
  : list internship :=
  internal_df ++ external.

(** The subset [["title", "description"]] of a row. *)
Definition dedup_key : Type := (option string * option string)%type.

Definition key_of (x : internship) : dedup_key := (title x, description x).

Definition cell_eq_dec (a b : option string) : {a = b} + {a <> b}.
Proof.
  decide equality; apply string_dec.
Defined.

Definition dedup_key_eq_dec (a b : dedup_key) : {a = b} + {a <> b}.
Proof.
  decide equality; apply cell_eq_dec.
Defined.

(** [drop_duplicates(subset=..., keep="first")]: one pass that remembers the
    keys already met and drops every row whose key was met before. *)
Fixpoint drop_seen (seen : list dedup_key) (df : list internship)
  : list internship :=
  match df with
  | [] => []
  | x :: rest =>
      if in_dec dedup_key_eq_dec (key_of x) seen
      then drop_seen seen rest
      else x :: drop_seen (key_of x :: seen) rest
  end.

Definition drop_duplicates (df : list internship) : list internship :=
  drop_seen [] df.

Definition aggregate (internal_df : list internship)
  (jsearch_list adzuna_list : list listing) : list internship :=
  let external_list := jsearch_list ++ adzuna_list in
  concat_frames internal_df (external_df external_list).

(** ** Section 8: the TF-IDF corpus *)

Definition corpus (student : student_record) (all_internships : list internship)
  : list string :=
  student_text student :: map text all_internships.

(** [\w] on ASCII text: letters, digits and the underscore.  No other
    character counts as a word character here. *)
Definition is_word_char (c : ascii) : bool :=
  let n := nat_of_ascii c in
  ((48 <=? n)%nat && (n <=? 57)%nat) ||
  ((65 <=? n)%nat && (n <=? 90)%nat) ||
  ((97 <=? n)%nat && (n <=? 122)%nat) ||
  (n =? 95)%nat.


(** A finished run of word characters is a token when it has two or more. *)
Definition flush (run : string) (tokens : list string) : list string :=
  if (2 <=? String.length run)%nat then tokens ++ [run] else tokens.

(** [re.findall(r"(?u)\b\w\w+\b", doc)] *)
Fixpoint scan (doc : string) (run : string) (tokens : list string)
  : list string :=
  match doc with
  | EmptyString => flush run tokens
  | String c rest =>
      if is_word_char c
      then scan rest (run ++ String c EmptyString) tokens
      else scan rest EmptyString (flush run tokens)
  end.

Definition tokenize (doc : string) : list string := scan doc "" [].

(** [df.take(indexer)]: the rows at the given positions, in that order. *)
Definition take {A : Type} (df : list A) (indexer : list nat) : list A :=
  flat_map (fun i => match nth_error df i with Some x => [x] | None => [] end)
           indexer.

(** [df.head(n)] *)
Definition head {A : Type} (n : nat) (df : list A) : list A := firstn n df.

(** The projection [top_matches[["id", "title", ...]].to_dict("records")]. *)
Definition to_record (row : internship * Q) : match_record :=
  {| m_id := id (fst row);
     m_title := title (fst row);
     m_description := description (fst row);
     m_similarity := snd row;
     m_source := source (fst row);
     m_url := url (fst row) |}.

Section Matcher.

(** scikit-learn's table [ENGLISH_STOP_WORDS]. *)
Variable ENGLISH_STOP_WORDS : list string.

(** The numeric kernel of [TfidfVectorizer] followed by
    [cosine_similarity]: from the analysed corpus (for the document
    frequencies), the profile document and one candidate document, the
    cosine of their TF-IDF vectors. *)
Variable tfidf_cosine : list (list string) -> list string -> list string -> Q.

(** numpy's [ndarray.argsort(kind="quicksort")], the default [kind] of
    [sort_values]. *)
Variable argsort : list Q -> list nat.

(** [TfidfVectorizer(stop_words="english").build_analyzer()] *)
Definition analyze (doc : string) : list string :=
  filter (fun tok => negb (existsb (String.eqb tok) ENGLISH_STOP_WORDS))
         (tokenize (lower doc)).

Definition vocabulary (docs : list (list string)) : list string :=
  nodup string_dec (List.concat docs).

Definition empty_vocabulary : exception :=
  ValueError "empty vocabulary; perhaps the documents only contain stop words".

(** [vectorizer.fit_transform(corpus)]: the vocabulary is learnt from the
    corpus itself, and an empty one is an error. *)
Definition fit_transform (raw_documents : list string) : M (list (list string)) :=
  let docs := map analyze raw_documents in
  match vocabulary docs with
  | [] => exit_with (uncaught empty_vocabulary)
  | _ :: _ => ret docs
  end.

(** [cosine_similarity(tfidf_matrix[0:1], tfidf_matrix[1:]).flatten()] *)
Definition cosine_similarity (tfidf_matrix : list (list string)) : list Q :=
  map (tfidf_cosine tfidf_matrix (hd [] tfidf_matrix)) (tl tfidf_matrix).

(** pandas' [nargsort(items, kind="quicksort", ascending=False)] on a
    column without missing values: sort the reversed column ascending and
    reverse the outcome. *)
Definition nargsort_descending (items : list Q) : list nat :=
  let idx := seq 0 (List.length items) in
  let non_nans := rev items in
  let non_nan_idx := rev idx in
  let indexer := take non_nan_idx (argsort non_nans) in
  rev indexer.

(** [df.sort_values("similarity", ascending=False)] *)
Definition sort_values_descending (df : list (internship * Q))
  : list (internship * Q) :=
  take df (nargsort_descending (map snd df)).

(** Section 9 of the source. *)
Definition top_matches (scored : list (internship * Q)) : list (internship * Q) :=
  head 10 (sort_values_descending scored).

Definition results (scored : list (internship * Q)) : list match_record :=
  map to_record (top_matches scored).

(** Sections 7 to 9, once the three sources have answered. *)
Definition rank (student_id : string) (student : student_record)
  (internal_df : list internship) (jsearch_list adzuna_list : list listing)
  : M outcome :=
  let all_internships :=
    drop_duplicates (aggregate internal_df jsearch_list adzuna_list) in
  match all_internships with
  | [] => exit_with NoCandidates
  | _ :: _ =>
      tfidf_matrix <- fit_transform (corpus student all_internships) ;;
      let similarities := cosine_similarity tfidf_matrix in
      let scored := combine all_internships similarities in
      let res := results scored in
      ret (matched student_id (List.length res) res)
  end.

Definition match_internships_body (b : backend) (student_id : string)
  : M outcome :=
  row <- fetch_student b student_id ;;
  student <- read_profile row ;;
  internal_df <- fetch_internal b ;;
  jsearch_list <- fetch_jsearch b student ;;
  adzuna_list <- fetch_adzuna b ;;
  rank student_id student internal_df jsearch_list adzuna_list.

(** The endpoint: its outcome and the calls it made, in order. *)
Definition match_internships (b : backend) (student_id : string)
  : outcome * list call :=
  run (match_internships_body b student_id).

End Matcher.

(** ** numpy's quicksort for index arrays

    The generic (scalar) [aquicksort_] of numpy's [npysort/quicksort.cpp],
    the routine behind [argsort(kind="quicksort")] where no vectorised sort
    is dispatched: an introsort over the index array [tosort] that
    partitions ranges of more than 17 elements around a median of three,
    finishes short ranges by insertion sort and falls back on heapsort when
    the depth budget of a stacked range is spent.  Loops carry a fuel
    argument; [npy_argsort] supplies enough of it. *)

Module Npy.

Definition SMALL_QUICKSORT : nat := 16.

(** [Tag::less] on doubles that are not NaN. *)
Definition less (a b : Q) : bool := negb (Qle_bool b a).

Definition get (a : list nat) (p : nat) : nat := nth p a 0%nat.

Fixpoint set (a : list nat) (p : nat) (x : nat) : list nat :=
  match a, p with
  | [], _ => []
  | _ :: rest, O => x :: rest
  | y :: rest, S p' => y :: set rest p' x
  end.

Definition swap (a : list nat) (p q : nat) : list nat :=
  set (set a p (get a q)) q (get a p).

Section Sort.

Variable v : list Q.

(** [v[*p]] *)
Definition at_ (a : list nat) (p : nat) : Q := nth (get a p) v 0.

Definition swap_if_less (a : list nat) (p q : nat) : list nat :=
  if less (at_ a p) (at_ a q) then swap a p q else a.

(** [do { ++pi; } while (less(v[*pi], vp));] *)
Fixpoint scan_up (fuel : nat) (a : list nat) (vp : Q) (pi : nat) : nat :=
  match fuel with
  | O => S pi
  | S fuel' =>
      if less (at_ a (S pi)) vp then scan_up fuel' a vp (S pi) else S pi
  end.

(** [do { --pj; } while (less(vp, v[*pj]));] *)
Fixpoint scan_down (fuel : nat) (a : list nat) (vp : Q) (pj : nat) : nat :=
  match fuel with
  | O => pred pj
  | S fuel' =>
      if less vp (at_ a (pred pj)) then scan_down fuel' a vp (pred pj)
      else pred pj
  end.

(** The [for (;;)] loop of the partition; returns the array and [pi]. *)
Fixpoint partition_loop (fuel : nat) (a : list nat) (vp : Q) (pi pj : nat)
  : list nat * nat :=
  match fuel with
  | O => (a, pi)
  | S fuel' =>
      let pi' := scan_up (List.length a) a vp pi in
      let pj' := scan_down (List.length a) a vp pj in
      if (pj' <=? pi')%nat then (a, pi')
      else partition_loop fuel' (swap a pi' pj') vp pi' pj'
  end.

(** One partition of [pl..pr]; returns the array and the pivot slot. *)
Definition partition (a : list nat) (pl pr : nat) : list nat * nat :=
  let pm := (pl + Nat.div2 (pr - pl))%nat in
  let a := swap_if_less a pm pl in
  let a := swap_if_less a pr pm in
  let a := swap_if_less a pm pl in
  let vp := at_ a pm in
  let pj := (pr - 1)%nat in
  let a := swap a pm pj in
  let '(a, pi) := partition_loop (List.length a) a vp pl pj in
  (swap a pi (pr - 1)%nat, pi).

(** [while (pj > pl && less(vp, v[*pk])) { *pj-- = *pk--; }] *)
Fixpoint shift (fuel : nat) (a : list nat) (pl : nat) (vp : Q) (pj : nat)
  : list nat * nat :=
  match fuel with
  | O => (a, pj)
  | S fuel' =>
      if (pl <? pj)%nat && less vp (at_ a (pj - 1)%nat)
      then shift fuel' (set a pj (get a (pj - 1)%nat)) pl vp (pj - 1)%nat
      else (a, pj)
  end.

(** The insertion sort of [pl..pr], from [pi] on. *)
Fixpoint insertion (fuel : nat) (a : list nat) (pl pr pi : nat) : list nat :=
  match fuel with
  | O => a
  | S fuel' =>
      if (pi <=? pr)%nat then
        let vi := get a pi in
        let '(a', pj) := shift (List.length a) a pl (nth vi v 0) pi in
        insertion fuel' (set a' pj vi) pl pr (S pi)
      else a
  end.

(** Heapsort works on [a = tosort + pl - 1], indexed from one. *)
Definition hget (a : list nat) (pl k : nat) : nat := get a (pl + k - 1)%nat.
Definition hset (a : list nat) (pl k x : nat) : list nat :=
  set a (pl + k - 1)%nat x.

(** The sift-down loop shared by both phases; returns the array and [i]. *)
Fixpoint sift (fuel : nat) (a : list nat) (pl n tmp i j : nat)
  : list nat * nat :=
  match fuel with
  | O => (a, i)
  | S fuel' =>
      if (j <=? n)%nat then
        let j :=
          if (j <? n)%nat &&
             less (nth (hget a pl j) v 0) (nth (hget a pl (S j)) v 0)
          then S j else j in
        if less (nth tmp v 0) (nth (hget a pl j) v 0)
        then sift fuel' (hset a pl i (hget a pl j)) pl n tmp j (j + j)%nat
        else (a, i)
      else (a, i)
  end.

(** [for (l = n >> 1; l > 0; --l)] *)
Fixpoint heapify (l : nat) (a : list nat) (pl n : nat) : list nat :=
  match l with
  | O => a
  | S l' =>
      let tmp := hget a pl l in
      let '(a', i) := sift n a pl n tmp l (l + l)%nat in
      heapify l' (hset a' pl i tmp) pl n
  end.

(** [for (; n > 1;)] *)
Fixpoint extract (fuel : nat) (a : list nat) (pl n : nat) : list nat :=
  match fuel with
  | O => a
  | S fuel' =>
      if (1 <? n)%nat then
        let tmp := hget a pl n in
        let a := hset a pl n (hget a pl 1) in
        let n := (n - 1)%nat in
        let '(a', i) := sift n a pl n tmp 1 2 in
        extract fuel' (hset a' pl i tmp) pl n
      else a
  end.

Definition aheapsort (a : list nat) (pl n : nat) : list nat :=
  extract n (heapify (Nat.div2 n) a pl n) pl n.

(** The inner [while ((pr - pl) > SMALL_QUICKSORT)] loop: partitions,
    stacks the larger side with the decremented depth and goes on with
    the smaller one.  Returns the array, the range left for insertion
    sort, the stack and the depth. *)
Fixpoint quick (fuel : nat) (a : list nat) (pl pr : nat)
  (stack : list (nat * nat * Z)) (cdepth : Z)
  : list nat * nat * nat * list (nat * nat * Z) * Z :=
  match fuel with
  | O => (a, pl, pr, stack, cdepth)
  | S fuel' =>
      if (SMALL_QUICKSORT <? pr - pl)%nat then
        let '(a', pi) := partition a pl pr in
        let cdepth' := (cdepth - 1)%Z in
        if (pi - pl <? pr - pi)%nat
        then quick fuel' a' pl (pi - 1)%nat
                   ((S pi, pr, cdepth') :: stack) cdepth'
        else quick fuel' a' (S pi) pr
                   ((pl, (pi - 1)%nat, cdepth') :: stack) cdepth'
      else (a, pl, pr, stack, cdepth)
  end.

(** The outer [while (1)] loop. *)
Fixpoint outer (fuel : nat) (a : list nat) (pl pr : nat)
  (stack : list (nat * nat * Z)) (cdepth : Z) : list nat :=
  match fuel with
  | O => a
  | S fuel' =>
      let '(a', stack') :=
        if (cdepth <? 0)%Z then (aheapsort a pl (pr - pl + 1)%nat, stack)
        else
          let '(a1, pl1, pr1, stack1, _) :=
            quick (List.length a) a pl pr stack cdepth in
          (insertion (List.length a) a1 pl1 pr1 (S pl1), stack1)
      in
      match stack' with
      | [] => a'
      | (pl', pr', cdepth') :: rest => outer fuel' a' pl' pr' rest cdepth'
      end
  end.

Definition aquicksort (tosort : list nat) : list nat :=
  let num := List.length tosort in
  outer (S num) tosort 0%nat (num - 1)%nat []
        (2 * Z.of_nat (Nat.log2 num))%Z.

End Sort.

(** [v.argsort(kind="quicksort")] *)
Definition npy_argsort (v : list Q) : list nat :=
  aquicksort v (seq 0 (List.length v)).

End Npy.

(** ** What each source contributes *)

Definition internal_df (w : world) : list internship :=
  map internal_row (internal_data w).

Definition jsearch_list {Student Row : Type} (w : collaborators Student Row)
  (student : student_record) : list listing :=
  if truthy (RAPIDAPI_KEY w)
  then jsearch_append [] (jsearch_items w student)
  else [].

Definition adzuna_list {Student Row : Type} (w : collaborators Student Row)
  : list listing :=
  if truthy (ADZUNA_APP_ID w) && truthy (ADZUNA_APP_KEY w)
  then adzuna_append [] (adzuna_items w)
  else [].

Definition all_internships (w : world) (student : student_record)
  : list internship :=
  drop_duplicates
    (aggregate (internal_df w) (jsearch_list w student) (adzuna_list w)).

(** The calls of a request whose profile was found. *)
Definition calls_after_profile {Student Row : Type}
  (w : collaborators Student Row) (student_id : string)
  (student : student_record) : list call :=
  [students_select_eq_id student_id; internships_select] ++
  (if truthy (RAPIDAPI_KEY w) then [jsearch_get (jsearch_url student)] else []) ++
  (if truthy (ADZUNA_APP_ID w) && truthy (ADZUNA_APP_KEY w)
   then [adzuna_get (adzuna_request w)] else []).

(** ** Source failures *)

Definition catalog_failed {Student Row : Type} (w : collaborators Student Row)
  : bool :=
  match respond_internships w with DbRaise _ => true | DbData _ => false end.

(** Missing credentials, an exception of the request, or a status other
    than 200. *)
Definition jsearch_failed {Student Row : Type} (w : collaborators Student Row)
  (student : student_record) : bool :=
  negb (truthy (RAPIDAPI_KEY w)) ||
  match respond_jsearch w (jsearch_url student) with
  | HttpRaise _ => true
  | HttpResponse status_code _ => negb (status_code =? 200)%Z
  end.

Definition adzuna_failed {Student Row : Type} (w : collaborators Student Row)
  : bool :=
  negb (truthy (ADZUNA_APP_ID w) && truthy (ADZUNA_APP_KEY w)) ||
  match respond_adzuna w (adzuna_request w) with
  | HttpRaise _ => true
  | HttpResponse status_code _ => negb (status_code =? 200)%Z
  end.

(** ** Deduplication, as the specification words it *)

Definition same_key (x y : internship) : bool :=
  if dedup_key_eq_dec (key_of x) (key_of y) then true else false.

(** Row [i] of the pool is the first one with its (title, description). *)
Definition is_first_occurrence (pool : list internship) (i : nat) : bool :=
  match nth_error pool i with
  | Some x => negb (existsb (same_key x) (firstn i pool))
  | None => false
  end.

(** The subsequence of first occurrences, in pool order. *)
Definition first_occurrences (pool : list internship) : list internship :=
  take pool (filter (is_first_occurrence pool) (seq 0 (List.length pool))).

(** The first row of the pool that has the key of [x]. *)
Definition first_seen (x : internship) (pool : list internship)
  : option internship :=
  find (same_key x) pool.

(** ** The contract of [argsort] and the order of a ranking *)

Fixpoint ascending (l : list Q) : bool :=
  match l with
  | a :: (b :: _) as rest => Qle_bool a b && ascending rest
  | _ => true
  end.

Fixpoint descending (l : list Q) : bool :=
  match l with
  | a :: (b :: _) as rest => Qle_bool b a && descending rest
  | _ => true
  end.

(** [idx] holds every position below [n], once each. *)
Definition is_range_permutation (n : nat) (idx : list nat) : bool :=
  (List.length idx =? n)%nat &&
  forallb (fun i => existsb (Nat.eqb i) idx) (seq 0 n).

(** "Returns the indices that would sort this array." *)
Definition is_argsort (v : list Q) (idx : list nat) : bool :=
  is_range_permutation (List.length v) idx && ascending (take v idx).

(** Rows with equal scores keep the relative order they have in [pool]. *)
Definition stable_wrt (pool out : list (internship * Q)) : Prop :=
  forall p q x y,
    (p < q)%nat ->
    nth_error out p = Some x -> nth_error out q = Some y ->
    snd x == snd y ->
    exists i j, (i < j)%nat /\ nth_error pool i = Some x /\
                nth_error pool j = Some y.

(** ** Sample data for the examples *)

Module Sample.

(** A few entries of scikit-learn's stop-word table. *)
Definition stop_words : list string :=
  ["a"; "an"; "and"; "the"; "of"; "in"; "to"; "for"; "with"; "is"].

(** A stand-in for the numeric kernel: the share of the candidate's
    tokens that occur in the profile (not scikit-learn's arithmetic). *)
Definition overlap (_ : list (list string)) (d0 d : list string) : Q :=
  Z.of_nat (List.length (filter (fun t => existsb (String.eqb t) d0) d))
  # Pos.of_nat (S (List.length d)).

Definition row (i t d : string) (sk : list string) : catalog_row :=
  {| row_id := i; row_title := Some t; row_description := Some d;
     row_required_skills := sk |}.

Definition jjob (t d : string) : jsearch_job :=
  {| job_id := JAbsent; job_title := JStr t; job_description := JStr d;
     job_apply_link := JStr "https://jobs.example/apply" |}.

Definition ajob (i t d : string) : adzuna_job :=
  {| adz_id := JStr i; adz_title := JStr t; adz_description := JStr d;
     adz_redirect_url := JAbsent |}.

Definition ada : student_record :=
  {| skills := ["python"; "react"]; bio := Some "Frontend developer" |}.

Definition blank : student_record := {| skills := []; bio := None |}.

Definition catalog : list catalog_row :=
  [row "1" "Python Intern" "Build APIs" ["python"];
   row "2" "Design Intern" "Draw logos" []].

Definition jsearch_jobs : list jsearch_job :=
  [jjob "Python Intern" "Build APIs"; jjob "React Intern" "Build the UI"].

Definition adzuna_jobs : list adzuna_job :=
  [ajob "77" "React Intern" "Build the UI"; ajob "78" "Data Intern" "python"].

(** Every source answers. *)
Definition w_all : world :=
  {| RAPIDAPI_KEY := Some "k"; ADZUNA_APP_ID := Some "i";
     ADZUNA_APP_KEY := Some "s";
     respond_students := fun _ => DbData [ada];
     respond_internships := DbData catalog;
     respond_jsearch := fun _ => HttpResponse 200 jsearch_jobs;
     respond_adzuna := fun _ => HttpResponse 200 adzuna_jobs |}.

(** No profile under the identifier. *)
Definition w_unknown : world :=
  {| RAPIDAPI_KEY := Some "k"; ADZUNA_APP_ID := Some "i";
     ADZUNA_APP_KEY := Some "s";
     respond_students := fun _ => DbData [];
     respond_internships := DbData catalog;
     respond_jsearch := fun _ => HttpResponse 200 jsearch_jobs;
     respond_adzuna := fun _ => HttpResponse 200 adzuna_jobs |}.

(** The profile query itself fails. *)
Definition w_db_down : world :=
  {| RAPIDAPI_KEY := None; ADZUNA_APP_ID := None; ADZUNA_APP_KEY := None;
     respond_students := fun _ => DbRaise "connection refused";
     respond_internships := DbRaise "connection refused";
     respond_jsearch := fun _ => HttpRaise "unreachable";
     respond_adzuna := fun _ => HttpRaise "unreachable" |}.

(** Every listing source fails, each in its own way. *)
Definition w_dark : world :=
  {| RAPIDAPI_KEY := Some "k"; ADZUNA_APP_ID := None;
     ADZUNA_APP_KEY := Some "s";
     respond_students := fun _ => DbData [ada];
     respond_internships := DbRaise "timeout";
     respond_jsearch := fun _ => HttpResponse 503 jsearch_jobs;
     respond_adzuna := fun _ => HttpResponse 200 adzuna_jobs |}.

(** A profile without skills or biography and a catalog whose only row
    says nothing but stop-words; no provider credentials. *)
Definition w_stop_words : world :=
  {| RAPIDAPI_KEY := None; ADZUNA_APP_ID := None; ADZUNA_APP_KEY := None;
     respond_students := fun _ => DbData [blank];
     respond_internships := DbData [row "9" "The" "of the and" []];
     respond_jsearch := fun _ => HttpRaise "unused";
     respond_adzuna := fun _ => HttpRaise "unused" |}.

(** Adzuna answers with eleven results. *)
Definition eleven : list adzuna_job :=
  map (fun n => ajob (str_of_nat n) ("Intern " ++ str_of_nat n) "work")
      (seq 0 11).

Definition w_eleven : world :=
  {| RAPIDAPI_KEY := None; ADZUNA_APP_ID := Some "i";
     ADZUNA_APP_KEY := Some "s";
     respond_students := fun _ => DbData [ada];
     respond_internships := DbData [];
     respond_jsearch := fun _ => HttpRaise "unused";
     respond_adzuna := fun _ => HttpResponse 200 eleven |}.

(** Eighteen distinct catalog rows that all score zero. *)
Definition tie (n : nat) : internship * Q :=
  (internal_row (row (str_of_nat n) ("Intern " ++ str_of_nat n) "work" []), 0).

Definition ties : list (internship * Q) := map tie (seq 0 18).

(** The aggregated pool of [w_all]: two of its six rows repeat an
    earlier (title, description). *)
Definition pool : list internship :=
  aggregate (internal_df w_all) (jsearch_list w_all ada) (adzuna_list w_all).

(** JSearch's copy of the first catalog row. *)
Definition dup : internship :=
  external_row (jsearch_entry 0 (jjob "Python Intern" "Build APIs")).

(** The catalog answers; no provider has credentials. *)
Definition w_catalog_only : world :=
  {| RAPIDAPI_KEY := None; ADZUNA_APP_ID := None; ADZUNA_APP_KEY := None;
     respond_students := fun _ => DbData [ada];
     respond_internships := DbData catalog;
     respond_jsearch := fun _ => HttpRaise "unused";
     respond_adzuna := fun _ => HttpRaise "unused" |}.

(** The catalog answers; JSearch is down and Adzuna times out.  The
    profile query returns a second record after the first. *)
Definition w_providers_down : world :=
  {| RAPIDAPI_KEY := Some "k"; ADZUNA_APP_ID := Some "i";
     ADZUNA_APP_KEY := Some "s";
     respond_students := fun _ => DbData [ada; blank];
     respond_internships := DbData catalog;
     respond_jsearch := fun _ => HttpResponse 503 jsearch_jobs;
     respond_adzuna := fun _ => HttpRaise "timeout" |}.

(** A profile whose skills are null; every source would answer. *)
Definition b_null_skills : backend :=
  {| RAPIDAPI_KEY := Some "k"; ADZUNA_APP_ID := Some "i";
     ADZUNA_APP_KEY := Some "s";
     respond_students := fun _ =>
       DbData [{| skills_field := LNull;
                  bio_field := Some "Frontend developer" |}];
     respond_internships := DbData (map as_internship_row catalog);
     respond_jsearch := fun _ => HttpResponse 200 jsearch_jobs;
     respond_adzuna := fun _ => HttpResponse 200 adzuna_jobs |}.



(** The first catalog row of [w_all], as a row of the pool. *)
Definition first_catalog_row : internship :=
  internal_row (row "1" "Python Intern" "Build APIs" ["python"]).

(** Three scored rows. *)
Definition three : list (internship * Q) :=
  [(internal_row (row "1" "A1" "x" []), 1 # 4);
   (internal_row (row "2" "B2" "y" []), 3 # 4);
   (internal_row (row "3" "C3" "z" []), 1 # 4)].

End Sample.

(** * Properties *)

(** ** Rows picked by position *)

Lemma take_cons {A : Type} (df : list A) (i : nat) (idx : list nat) :
  take df (i :: idx) =
  match nth_error df i with Some x => [x] | None => [] end ++ take df idx.
Proof. reflexivity. Qed.

Lemma take_app {A : Type} (df : list A) (idx1 idx2 : list nat) :
  take df (idx1 ++ idx2) = take df idx1 ++ take df idx2.
Proof. unfold take. apply flat_map_app. Qed.

Lemma take_rev {A : Type} (df : list A) (idx : list nat) :
  take df (rev idx) = rev (take df idx).
Proof.
  induction idx as [|i idx IH]; simpl; [reflexivity|].
  rewrite take_app, IH, take_cons, rev_app_distr.
  simpl. destruct (nth_error df i); reflexivity.
Qed.

Lemma take_map {A B : Type} (f : A -> B) (df : list A) (idx : list nat) :
  take (map f df) idx = map f (take df idx).
Proof.
  induction idx as [|i idx IH]; [reflexivity|].
  rewrite !take_cons, map_app, IH, nth_error_map.
  destruct (nth_error df i); reflexivity.
Qed.

Lemma take_seq_shift {A : Type} (x : A) (df : list A) (s n : nat) :
  take (x :: df) (seq (S s) n) = take df (seq s n).
Proof.
  revert s. induction n as [|n IH]; intros s; [reflexivity|].
  simpl seq. rewrite !take_cons, IH. reflexivity.
Qed.

Lemma take_seq_all {A : Type} (df : list A) :
  take df (seq 0 (List.length df)) = df.
Proof.
  induction df as [|x df IH]; [reflexivity|].
  simpl List.length. simpl seq. rewrite take_cons, take_seq_shift, IH.
  reflexivity.
Qed.

(** Picking through a table of positions that are all in range. *)
Lemma take_take {A : Type} (df : list A) (table idx : list nat) :
  Forall (fun i => (i < List.length df)%nat) table ->
  take df (take table idx) = take (take df table) idx.
Proof.
  intros Hin. induction idx as [|k idx IH]; [reflexivity|].
  rewrite !take_cons, take_app, IH. f_equal.
  clear IH. revert k. induction Hin as [|i table Hi _ IHt]; intros k.
  - destruct k; reflexivity.
  - rewrite take_cons.
    destruct (nth_error df i) as [x|] eqn:E;
      [|apply nth_error_None in E; lia].
    destruct k as [|k]; simpl.
    + rewrite E. reflexivity.
    + apply IHt.
Qed.

Lemma take_permutation {A : Type} (df : list A) (idx1 idx2 : list nat) :
  Permutation idx1 idx2 -> Permutation (take df idx1) (take df idx2).
Proof. intros H. unfold take. apply Permutation_flat_map. exact H. Qed.

(** ** Deduplication *)

Lemma drop_seen_length (seen : list dedup_key) (df : list internship) :
  (List.length (drop_seen seen df) <= List.length df)%nat.
Proof.
  revert seen. induction df as [|x df IH]; intros seen; simpl; [lia|].
  destruct (in_dec dedup_key_eq_dec (key_of x) seen); simpl.
  - specialize (IH seen). lia.
  - specialize (IH (key_of x :: seen)). lia.
Qed.

Lemma drop_seen_In (seen : list dedup_key) (df : list internship) (x : internship) :
  In x (drop_seen seen df) -> In x df /\ ~ In (key_of x) seen.
Proof.
  revert seen. induction df as [|y df IH]; intros seen; simpl; [tauto|].
  destruct (in_dec dedup_key_eq_dec (key_of y) seen) as [Hy|Hy].
  - intros H. apply IH in H. tauto.
  - intros [H|H].
    + subst y. tauto.
    + apply IH in H. simpl in H. tauto.
Qed.

Lemma drop_seen_NoDup (seen : list dedup_key) (df : list internship) :
  NoDup (map key_of (drop_seen seen df)).
Proof.
  revert seen. induction df as [|x df IH]; intros seen; simpl; [constructor|].
  destruct (in_dec dedup_key_eq_dec (key_of x) seen) as [Hx|Hx].
  - apply IH.
  - simpl. constructor; [|apply IH].
    intros Hin. apply in_map_iff in Hin. destruct Hin as [y [Hk Hy]].
    apply drop_seen_In in Hy. destruct Hy as [_ Hy].
    apply Hy. rewrite Hk. left. reflexivity.
Qed.

(** Only the set of remembered keys matters. *)
Lemma drop_seen_ext (seen1 seen2 : list dedup_key) (df : list internship) :
  (forall k, In k seen1 <-> In k seen2) ->
  drop_seen seen1 df = drop_seen seen2 df.
Proof.
  revert seen1 seen2. induction df as [|x df IH]; intros s1 s2 Heq; simpl;
    [reflexivity|].
  destruct (in_dec dedup_key_eq_dec (key_of x) s1) as [H1|H1];
    destruct (in_dec dedup_key_eq_dec (key_of x) s2) as [H2|H2].
  - apply IH, Heq.
  - exfalso. apply H2, Heq, H1.
  - exfalso. apply H1, Heq, H2.
  - f_equal. apply IH. intros k. simpl. rewrite Heq. tauto.
Qed.

Lemma same_key_true (x y : internship) :
  same_key x y = true <-> key_of x = key_of y.
Proof.
  unfold same_key. destruct (dedup_key_eq_dec (key_of x) (key_of y));
    split; congruence.
Qed.

Lemma existsb_same_key (x : internship) (l : list internship) :
  existsb (same_key x) l = true <-> In (key_of x) (map key_of l).
Proof.
  rewrite existsb_exists, in_map_iff. split.
  - intros [y [Hy Hk]]. apply same_key_true in Hk. eauto.
  - intros [y [Hk Hy]]. exists y. split; [exact Hy|].
    apply same_key_true. congruence.
Qed.

Lemma firstn_length_app {A : Type} (p l : list A) :
  firstn (List.length p) (p ++ l) = p.
Proof. induction p as [|a p IH]; simpl; [destruct l|]; congruence. Qed.

Lemma nth_error_length_app {A : Type} (p l : list A) (x : A) :
  nth_error (p ++ x :: l) (List.length p) = Some x.
Proof. induction p as [|a p IH]; simpl; auto. Qed.

(** The one-pass filter and the positional reading agree, for any rows
    already met. *)
Lemma drop_seen_first_occurrences (prefix df : list internship) :
  take (prefix ++ df)
       (filter (is_first_occurrence (prefix ++ df))
               (seq (List.length prefix) (List.length df)))
  = drop_seen (map key_of prefix) df.
Proof.
  revert prefix. induction df as [|x df IH]; intros prefix; [reflexivity|].
  simpl List.length. simpl seq. simpl filter.
  assert (Hfirst : is_first_occurrence (prefix ++ x :: df) (List.length prefix)
                   = negb (existsb (same_key x) prefix)).
  { unfold is_first_occurrence.
    rewrite nth_error_length_app, firstn_length_app. reflexivity. }
  assert (Hrest : take (prefix ++ x :: df)
                       (filter (is_first_occurrence (prefix ++ x :: df))
                               (seq (S (List.length prefix)) (List.length df)))
                  = drop_seen (map key_of (prefix ++ [x])) df).
  { specialize (IH (prefix ++ [x])).
    rewrite <- app_assoc, length_app, Nat.add_1_r in IH. exact IH. }
  rewrite Hfirst. simpl drop_seen.
  destruct (in_dec dedup_key_eq_dec (key_of x) (map key_of prefix)) as [Hx|Hx].
  - apply existsb_same_key in Hx. rewrite Hx. simpl negb. cbv iota.
    rewrite Hrest. apply drop_seen_ext. intros k.
    rewrite map_app, in_app_iff. simpl. split; [|tauto].
    intros [H|[H|[]]]; [exact H|]. subst k. apply existsb_same_key, Hx.
  - assert (Hf : existsb (same_key x) prefix = false).
    { destruct (existsb (same_key x) prefix) eqn:E; [|reflexivity].
      exfalso. apply Hx, existsb_same_key, E. }
    rewrite Hf. simpl negb. cbv iota.
    rewrite take_cons, nth_error_length_app, Hrest. simpl. f_equal.
    apply drop_seen_ext. intros k.
    rewrite map_app, in_app_iff. simpl. tauto.
Qed.

Lemma drop_seen_first_seen (seen : list dedup_key) (df : list internship)
  (x : internship) :
  In x (drop_seen seen df) -> first_seen x df = Some x.
Proof.
  unfold first_seen. revert seen.
  induction df as [|y df IH]; intros seen; simpl; [tauto|].
  destruct (in_dec dedup_key_eq_dec (key_of y) seen) as [Hy|Hy].
  - intros H. pose proof (drop_seen_In _ _ _ H) as [_ Hx].
    destruct (same_key x y) eqn:E; [|eapply IH, H].
    apply same_key_true in E. exfalso. apply Hx. rewrite E. exact Hy.
  - intros [H|H].
    + subst y. replace (same_key x x) with true; [reflexivity|].
      symmetry. apply same_key_true. reflexivity.
    + pose proof (drop_seen_In _ _ _ H) as [_ Hx].
      destruct (same_key x y) eqn:E; [|eapply IH, H].
      apply same_key_true in E. exfalso. apply Hx. left. congruence.
Qed.

(** Every key of the pool that was not met before keeps one row. *)
Lemma drop_seen_keeps_key (seen : list dedup_key) (df : list internship)
  (y : internship) :
  In y df -> ~ In (key_of y) seen ->
  exists x, In x (drop_seen seen df) /\ key_of x = key_of y.
Proof.
  revert seen. induction df as [|z df IH]; intros seen; simpl; [tauto|].
  intros Hy Hfresh.
  destruct (in_dec dedup_key_eq_dec (key_of z) seen) as [Hz|Hz].
  - destruct Hy as [Hy|Hy]; [subst z; tauto|]. apply IH; assumption.
  - destruct (dedup_key_eq_dec (key_of z) (key_of y)) as [E|E].
    + exists z. split; [left; reflexivity|exact E].
    + destruct Hy as [Hy|Hy]; [subst z; congruence|].
      destruct (IH (key_of z :: seen) Hy) as [x [Hx Hk]].
      * simpl. intros [H|H]; [congruence|tauto].
      * exists x. split; [right; exact Hx|exact Hk].
Qed.

Lemma filter_none {A : Type} (f : A -> bool) (l : list A) :
  (forall z, In z l -> f z = false) -> filter f l = [].
Proof.
  induction l as [|a l IH]; intros H; simpl; [reflexivity|].
  rewrite (H a (or_introl eq_refl)). apply IH. intros z Hz. apply H.
  right. exact Hz.
Qed.

(** Among rows with pairwise distinct keys, a key selects one row. *)
Lemma filter_same_key_single (l : list internship) (x y : internship) :
  NoDup (map key_of l) -> In x l -> key_of x = key_of y ->
  filter (same_key y) l = [x].
Proof.
  induction l as [|a l IH]; simpl; [tauto|].
  intros Hnd Hin Hk. inversion Hnd as [|? ? Ha Hnd']; subst.
  destruct Hin as [Hin|Hin].
  - subst a. replace (same_key y x) with true
      by (symmetry; apply same_key_true; congruence).
    f_equal. apply filter_none. intros z Hz.
    destruct (same_key y z) eqn:E; [|reflexivity].
    apply same_key_true in E. exfalso. apply Ha.
    apply in_map_iff. exists z. split; [congruence|exact Hz].
  - replace (same_key y a) with false; [apply IH; assumption|].
    symmetry. destruct (same_key y a) eqn:E; [|reflexivity].
    apply same_key_true in E. exfalso. apply Ha.
    apply in_map_iff. exists x. split; [congruence|exact Hin].
Qed.

Lemma find_pointwise {A : Type} (f g : A -> bool) (l : list A) :
  (forall z, f z = g z) -> find f l = find g l.
Proof.
  intros H. induction l as [|a l IH]; simpl; [reflexivity|].
  rewrite H, IH. reflexivity.
Qed.

Lemma find_in_prefix {A : Type} (f : A -> bool) (l1 l2 : list A) (y : A) :
  In y l1 -> f y = true ->
  exists x, find f (l1 ++ l2) = Some x /\ In x l1.
Proof.
  induction l1 as [|a l1 IH]; simpl; [tauto|].
  intros Hin Hf. destruct (f a) eqn:E.
  - exists a. split; [reflexivity|left; reflexivity].
  - destruct Hin as [Hin|Hin]; [subst a; congruence|].
    destruct (IH Hin Hf) as [x [Hx Hx']]. exists x. tauto.
Qed.

(** ** The sources of the aggregated rows *)

Lemma jsearch_append_source (acc : list listing) (jobs : list jsearch_job) :
  Forall (fun x => l_source x = external_jsearch) acc ->
  Forall (fun x => l_source x = external_jsearch) (jsearch_append acc jobs).
Proof.
  revert acc. induction jobs as [|job jobs IH]; intros acc Hacc; simpl;
    [exact Hacc|].
  apply IH. apply Forall_app. split; [exact Hacc|].
  constructor; [reflexivity|constructor].
Qed.

Lemma adzuna_append_source (acc : list listing) (jobs : list adzuna_job) :
  Forall (fun x => l_source x = external_adzuna) acc ->
  Forall (fun x => l_source x = external_adzuna) (adzuna_append acc jobs).
Proof.
  revert acc. induction jobs as [|job jobs IH]; intros acc Hacc; simpl;
    [exact Hacc|].
  apply IH. apply Forall_app. split; [exact Hacc|].
  constructor; [reflexivity|constructor].
Qed.

Lemma jsearch_append_length (acc : list listing) (jobs : list jsearch_job) :
  List.length (jsearch_append acc jobs)
  = (List.length acc + List.length jobs)%nat.
Proof.
  revert acc. induction jobs as [|job jobs IH]; intros acc; simpl; [lia|].
  rewrite IH, length_app. simpl. lia.
Qed.

Lemma adzuna_append_length (acc : list listing) (jobs : list adzuna_job) :
  List.length (adzuna_append acc jobs)
  = (List.length acc + List.length jobs)%nat.
Proof.
  revert acc. induction jobs as [|job jobs IH]; intros acc; simpl; [lia|].
  rewrite IH, length_app. simpl. lia.
Qed.

Lemma aggregate_sources (rows : list catalog_row) (jobs_a : list jsearch_job)
  (jobs_b : list adzuna_job) :
  Forall (fun x => source x = supabase) (map internal_row rows) /\
  Forall (fun x => source x = external_jsearch)
         (map external_row (jsearch_append [] jobs_a)) /\
  Forall (fun x => source x = external_adzuna)
         (map external_row (adzuna_append [] jobs_b)).
Proof.
  repeat split.
  - apply Forall_map, Forall_forall. reflexivity.
  - apply Forall_map. apply (jsearch_append_source [] jobs_a). constructor.
  - apply Forall_map. apply (adzuna_append_source [] jobs_b). constructor.
Qed.

Lemma world_sources (w : world) (student : student_record) :
  Forall (fun x => source x = supabase) (internal_df w) /\
  Forall (fun x => source x = external_jsearch)
         (map external_row (jsearch_list w student)) /\
  Forall (fun x => source x = external_adzuna)
         (map external_row (adzuna_list w)).
Proof.
  unfold internal_df, jsearch_list, adzuna_list.
  destruct (aggregate_sources (internal_data w) (jsearch_items w student)
                              (adzuna_items w)) as [Hc [Ha Hb]].
  split; [exact Hc|]. split.
  - destruct (truthy (RAPIDAPI_KEY w)); [exact Ha|constructor].
  - destruct (truthy (ADZUNA_APP_ID w) && truthy (ADZUNA_APP_KEY w));
      [exact Hb|constructor].
Qed.

Lemma world_aggregate (w : world) (student : student_record) :
  aggregate (internal_df w) (jsearch_list w student) (adzuna_list w)
  = internal_df w ++ map external_row (jsearch_list w student)
                  ++ map external_row (adzuna_list w).
Proof.
  unfold aggregate, concat_frames, external_df. rewrite map_app. reflexivity.
Qed.

Lemma find_split {A : Type} (f : A -> bool) (l : list A) (x : A) :
  find f l = Some x ->
  exists before after,
    l = before ++ x :: after /\ (forall z, In z before -> f z = false) /\
    f x = true.
Proof.
  induction l as [|a l IH]; simpl; [discriminate|].
  destruct (f a) eqn:E.
  - intros H. inversion H. subst a. exists [], l.
    split; [reflexivity|]. split; [intros z []|exact E].
  - intros H. destruct (IH H) as [before [after [Hl [Hb Hx]]]].
    exists (a :: before), after. split; [simpl; congruence|].
    split; [|exact Hx]. intros z [Hz|Hz]; [subst z; exact E|apply Hb, Hz].
Qed.

Lemma find_skip_prefix {A : Type} (f : A -> bool) (l1 l2 : list A) :
  (forall z, In z l1 -> f z = false) -> find f (l1 ++ l2) = find f l2.
Proof.
  induction l1 as [|a l1 IH]; intros H; simpl; [reflexivity|].
  rewrite (H a (or_introl eq_refl)). apply IH. intros z Hz. apply H.
  right. exact Hz.
Qed.

(** C3. For every pool, [drop_duplicates] returns at most as many rows as it
    was given, and no two rows of its result (at different positions) have
    both the same raw title and the same raw description. *)
Theorem drop_duplicates_distinct (pool : list internship) :
  (List.length (drop_duplicates pool) <= List.length pool)%nat /\
  forall i j x y,
    i <> j ->
    nth_error (drop_duplicates pool) i = Some x ->
    nth_error (drop_duplicates pool) j = Some y ->
    ~ (title x = title y /\ description x = description y).
Proof.
  split; [apply drop_seen_length|].
  intros i j x y Hij Hi Hj [Ht Hd]. apply Hij.
  pose proof (drop_seen_NoDup [] pool) as Hnd.
  fold (drop_duplicates pool) in Hnd.
  rewrite NoDup_nth_error in Hnd. apply Hnd.
  - rewrite length_map. apply nth_error_Some. congruence.
  - rewrite !nth_error_map, Hi, Hj. simpl. unfold key_of. congruence.
Qed.

(** C4. The aggregated pool is the catalog rows, then JSearch's, then
    Adzuna's.  For every row of it, [drop_duplicates] keeps exactly one row
    with its (title, description): the first such row of the pool, no row
    before it having that pair.  When a catalog row has the pair, the row
    kept is a catalog row and carries the catalog tag, whichever provider
    offers the pair too; when a JSearch row has it and no catalog row
    does, the row kept is a JSearch row. *)
Theorem first_seen_wins (w : world) (student : student_record) :
  let catalog := internal_df w in
  let provider_a := map external_row (jsearch_list w student) in
  let provider_b := map external_row (adzuna_list w) in
  let pool := aggregate (internal_df w) (jsearch_list w student) (adzuna_list w) in
  pool = catalog ++ provider_a ++ provider_b /\
  (forall y, In y pool ->
     exists x before after,
       pool = before ++ x :: after /\
       (forall z, In z before -> key_of z <> key_of y) /\
       key_of x = key_of y /\
       first_seen y pool = Some x /\
       filter (same_key y) (drop_duplicates pool) = [x]) /\
  (forall c y, In c catalog -> In y pool -> key_of y = key_of c ->
     exists x,
       filter (same_key y) (drop_duplicates pool) = [x] /\
       In x catalog /\ source x = supabase) /\
  (forall a y, In a provider_a -> In y pool -> key_of y = key_of a ->
     (forall c, In c catalog -> key_of c <> key_of a) ->
     exists x,
       filter (same_key y) (drop_duplicates pool) = [x] /\
       In x provider_a /\ source x = external_jsearch).
Proof.
  intros catalog provider_a provider_b pool.
  assert (Hpool : pool = catalog ++ provider_a ++ provider_b)
    by apply world_aggregate.
  assert (Hkept : forall y, In y pool ->
            exists x, first_seen y pool = Some x /\
                      filter (same_key y) (drop_duplicates pool) = [x]).
  { intros y Hy.
    destruct (drop_seen_keeps_key [] pool y Hy (fun H => H)) as [x [Hx Hk]].
    exists x. split.
    - pose proof (drop_seen_first_seen _ _ _ Hx) as H. unfold first_seen in *.
      rewrite <- H. apply find_pointwise. intros z. unfold same_key.
      rewrite Hk. reflexivity.
    - apply filter_same_key_single;
        [apply drop_seen_NoDup|exact Hx|exact Hk]. }
  destruct (world_sources w student) as [Hc [Ha _]].
  rewrite Forall_forall in Hc, Ha.
  split; [exact Hpool|]. split; [|split].
  - intros y Hy. destruct (Hkept y Hy) as [x [Hfirst Hfilter]].
    exists x. unfold first_seen in Hfirst.
    destruct (find_split _ _ _ Hfirst) as [before [after [Hl [Hb Hx]]]].
    exists before, after. split; [exact Hl|]. split.
    + intros z Hz E. specialize (Hb z Hz).
      assert (Ht : same_key y z = true) by (apply same_key_true; congruence).
      congruence.
    + split; [symmetry; apply same_key_true; exact Hx|].
      split; [exact Hfirst|exact Hfilter].
  - intros c y Hcin Hy Hk. destruct (Hkept y Hy) as [x [Hfirst Hfilter]].
    exists x. split; [exact Hfilter|].
    assert (Hyc : same_key y c = true) by (apply same_key_true; exact Hk).
    unfold first_seen in Hfirst. rewrite Hpool in Hfirst.
    destruct (find_in_prefix (same_key y) catalog (provider_a ++ provider_b)
                c Hcin Hyc) as [x' [Hx' Hin]].
    rewrite Hfirst in Hx'. inversion Hx'. subst x'.
    split; [exact Hin|apply Hc, Hin].
  - intros a y Hain Hy Hk Hnone. destruct (Hkept y Hy) as [x [Hfirst Hfilter]].
    exists x. split; [exact Hfilter|].
    assert (Hya : same_key y a = true) by (apply same_key_true; exact Hk).
    unfold first_seen in Hfirst. rewrite Hpool in Hfirst.
    rewrite find_skip_prefix in Hfirst.
    + destruct (find_in_prefix (same_key y) provider_a provider_b a Hain Hya)
        as [x' [Hx' Hin]].
      rewrite Hfirst in Hx'. inversion Hx'. subst x'.
      split; [exact Hin|apply Ha, Hin].
    + intros z Hz. destruct (same_key y z) eqn:E; [|reflexivity].
      apply same_key_true in E. exfalso. apply (Hnone z Hz). congruence.
Qed.

(** C10. For every world and profile, the deduplicated pool is the
    subsequence of the aggregated pool (catalog rows, then JSearch's, then
    Adzuna's) made of the first occurrence of each (title, description), in
    pool order, and the scoring corpus is the profile text followed by the
    texts of those rows in that order. *)
Theorem drop_duplicates_keeps_order (w : world) (student : student_record) :
  let pool := aggregate (internal_df w) (jsearch_list w student) (adzuna_list w) in
  pool = internal_df w ++ map external_row (jsearch_list w student)
                       ++ map external_row (adzuna_list w) /\
  all_internships w student = first_occurrences pool /\
  corpus student (all_internships w student)
  = student_text student :: map text (first_occurrences pool).
Proof.
  intros pool.
  assert (H : all_internships w student = first_occurrences pool).
  { unfold all_internships, drop_duplicates, first_occurrences. fold pool.
    symmetry. apply (drop_seen_first_occurrences [] pool). }
  split; [apply world_aggregate|]. split; [exact H|].
  unfold corpus. rewrite H. reflexivity.
Qed.

(** ** The endpoint, end to end *)

Lemma profile_of_as_student_row (student : student_record) :
  profile_of (as_student_row student) = Some student.
Proof. destruct student. reflexivity. Qed.

Lemma typed_rows_as_internship_rows (rows : list catalog_row) :
  typed_rows (map as_internship_row rows) = Some rows.
Proof.
  induction rows as [|x rows IH]; [reflexivity|].
  simpl. rewrite IH. destruct x. reflexivity.
Qed.

Lemma internal_data_as_backend (w : world) :
  internal_data (as_backend w) = map as_internship_row (internal_data w).
Proof.
  unfold internal_data. simpl. destruct (respond_internships w); reflexivity.
Qed.

Section Endpoint.

Variable ENGLISH_STOP_WORDS : list string.
Variable tfidf_cosine : list (list string) -> list string -> list string -> Q.
Variable argsort : list Q -> list nat.

Let rank' := rank ENGLISH_STOP_WORDS tfidf_cosine argsort.
Let endpoint := match_internships ENGLISH_STOP_WORDS tfidf_cosine argsort.

(** Ranking makes no call: it leaves the trace as it found it. *)
Lemma rank_trace (student_id : string) (student : student_record)
  (idf : list internship) (jl al : list listing) (tr : list call) :
  rank' student_id student idf jl al tr
  = (fst (rank' student_id student idf jl al []), tr).
Proof.
  unfold rank', rank.
  destruct (drop_duplicates (aggregate idf jl al)); [reflexivity|].
  unfold bind, fit_transform.
  destruct (vocabulary _); reflexivity.
Qed.

(** A profile fetched and joined, and a catalog whose rows all have a
    list of required skills: the three sources are read in order and
    their contributions are ranked. *)
Lemma backend_found (b : backend) (student_id : string)
  (row : student_row) (others : list student_row)
  (student : student_record) (rows : list catalog_row) :
  respond_students b student_id = DbData (row :: others) ->
  profile_of row = Some student ->
  typed_rows (internal_data b) = Some rows ->
  endpoint b student_id
  = (match fst (rank' student_id student (map internal_row rows)
                      (jsearch_list b student) (adzuna_list b) []) with
     | inl o => o
     | inr o => o
     end,
     calls_after_profile b student_id student).
Proof.
  intros Hs Hp Hr.
  unfold endpoint, match_internships, match_internships_body, run.
  unfold bind at 1. unfold fetch_student, bind at 1, perform. rewrite Hs.
  unfold ret at 1. unfold bind at 1, read_profile. rewrite Hp.
  unfold ret at 1.
  unfold bind at 1, fetch_internal, bind at 1, perform. rewrite Hr.
  unfold ret at 1.
  unfold bind at 1, fetch_jsearch, fetch_adzuna, calls_after_profile,
    jsearch_list, adzuna_list.
  fold rank'.
  destruct (truthy (RAPIDAPI_KEY b));
    destruct (truthy (ADZUNA_APP_ID b) && truthy (ADZUNA_APP_KEY b));
    unfold bind, perform, ret; simpl app;
    rewrite rank_trace;
    destruct (fst (rank' _ _ _ _ _ [])); reflexivity.
Qed.

(** Without a profile the request ends after its first call. *)
Lemma backend_unknown (b : backend) (student_id : string) :
  respond_students b student_id = DbData [] ->
  endpoint b student_id
  = (ProfileNotFound student_id, [students_select_eq_id student_id]).
Proof.
  intros Hs.
  unfold endpoint, match_internships, match_internships_body, run.
  unfold bind at 1. unfold fetch_student, bind at 1, perform. rewrite Hs.
  reflexivity.
Qed.

Lemma backend_db_error (b : backend) (student_id e : string) :
  respond_students b student_id = DbRaise e ->
  endpoint b student_id
  = (ProfileDatabaseError e, [students_select_eq_id student_id]).
Proof.
  intros Hs.
  unfold endpoint, match_internships, match_internships_body, run.
  unfold bind at 1. unfold fetch_student, bind at 1, perform. rewrite Hs.
  reflexivity.
Qed.

(** A profile whose skills are null stops the request at line 63. *)
Lemma backend_null_skills (b : backend) (student_id : string)
  (row : student_row) (others : list student_row) :
  respond_students b student_id = DbData (row :: others) ->
  profile_of row = None ->
  endpoint b student_id
  = (uncaught cannot_join, [students_select_eq_id student_id]).
Proof.
  intros Hs Hp.
  unfold endpoint, match_internships, match_internships_body, run.
  unfold bind at 1. unfold fetch_student, bind at 1, perform. rewrite Hs.
  unfold ret at 1. unfold bind at 1, read_profile. rewrite Hp.
  reflexivity.
Qed.


(** In a world, no skill column is null. *)
Lemma match_internships_found (w : world) (student_id : string)
  (student : student_record) (others : list student_record) :
  respond_students w student_id = DbData (student :: others) ->
  endpoint (as_backend w) student_id
  = (match fst (rank' student_id student (internal_df w)
                      (jsearch_list w student) (adzuna_list w) []) with
     | inl o => o
     | inr o => o
     end,
     calls_after_profile w student_id student).
Proof.
  intros Hs.
  apply (backend_found (as_backend w) student_id (as_student_row student)
           (map as_student_row others) student (internal_data w)).
  - simpl. rewrite Hs. reflexivity.
  - apply profile_of_as_student_row.
  - rewrite internal_data_as_backend. apply typed_rows_as_internship_rows.
Qed.

Lemma match_internships_unknown (w : world) (student_id : string) :
  respond_students w student_id = DbData [] ->
  endpoint (as_backend w) student_id
  = (ProfileNotFound student_id, [students_select_eq_id student_id]).
Proof.
  intros Hs. apply backend_unknown. simpl. rewrite Hs. reflexivity.
Qed.

Lemma match_internships_db_error (w : world) (student_id e : string) :
  respond_students w student_id = DbRaise e ->
  endpoint (as_backend w) student_id
  = (ProfileDatabaseError e, [students_select_eq_id student_id]).
Proof.
  intros Hs. apply backend_db_error. simpl. rewrite Hs. reflexivity.
Qed.

Lemma rank_empty_pool (student_id : string) (student : student_record)
  (idf : list internship) (jl al : list listing) :
  drop_duplicates (aggregate idf jl al) = [] ->
  fst (rank' student_id student idf jl al []) = inr NoCandidates.
Proof. intros H. unfold rank', rank. rewrite H. reflexivity. Qed.

Lemma rank_empty_vocabulary (student_id : string) (student : student_record)
  (idf : list internship) (jl al : list listing) :
  drop_duplicates (aggregate idf jl al) <> [] ->
  vocabulary (map (analyze ENGLISH_STOP_WORDS)
                  (corpus student (drop_duplicates (aggregate idf jl al)))) = [] ->
  fst (rank' student_id student idf jl al [])
  = inr (uncaught empty_vocabulary).
Proof.
  intros Hne Hv. unfold rank', rank.
  destruct (drop_duplicates (aggregate idf jl al)) as [|x l] eqn:E;
    [congruence|].
  unfold bind, fit_transform. rewrite Hv. reflexivity.
Qed.

(** With candidates and a vocabulary, the matches are the [results] of the
    pool scored by the kernel. *)
Lemma rank_matched (student_id : string) (student : student_record)
  (idf : list internship) (jl al : list listing) :
  let pool := drop_duplicates (aggregate idf jl al) in
  let docs := map (analyze ENGLISH_STOP_WORDS) (corpus student pool) in
  let res := results argsort
               (combine pool (cosine_similarity tfidf_cosine docs)) in
  pool <> [] -> vocabulary docs <> [] ->
  fst (rank' student_id student idf jl al [])
  = inl (matched student_id (List.length res) res).
Proof.
  intros pool docs res Hne Hv. unfold rank', rank. fold pool.
  destruct pool as [|x l] eqn:E; [congruence|].
  unfold bind, fit_transform. fold docs.
  destruct (vocabulary docs); [congruence|]. reflexivity.
Qed.

(** The outcomes of ranking: no candidates, the vectorizer's error, or a
    list of matches. *)
Lemma rank_outcomes (student_id : string) (student : student_record)
  (idf : list internship) (jl al : list listing) :
  let r := fst (rank' student_id student idf jl al []) in
  r = inr NoCandidates \/ r = inr (uncaught empty_vocabulary) \/
  exists ms, r = inl (matched student_id (List.length ms) ms).
Proof.
  unfold rank', rank.
  destruct (drop_duplicates (aggregate idf jl al)); [left; reflexivity|].
  right. unfold bind, fit_transform.
  destruct (vocabulary _); [left; reflexivity|].
  right. eexists. reflexivity.
Qed.

End Endpoint.

(** ** Failures and what crosses the boundary *)

Lemma catalog_failure_absorbed (w : world) :
  catalog_failed w = true -> internal_df w = [].
Proof.
  unfold catalog_failed, internal_df, internal_data.
  destruct (respond_internships w); [reflexivity|discriminate].
Qed.

Lemma jsearch_failure_absorbed (w : world) (student : student_record) :
  jsearch_failed w student = true -> jsearch_list w student = [].
Proof.
  unfold jsearch_failed, jsearch_list, jsearch_items.
  destruct (truthy (RAPIDAPI_KEY w)); [simpl|reflexivity].
  destruct (respond_jsearch w (jsearch_url student)) as [e|st items];
    [reflexivity|].
  destruct (st =? 200)%Z; [discriminate|reflexivity].
Qed.

Lemma adzuna_failure_absorbed (w : world) :
  adzuna_failed w = true -> adzuna_list w = [].
Proof.
  unfold adzuna_failed, adzuna_list, adzuna_items.
  destruct (truthy (ADZUNA_APP_ID w) && truthy (ADZUNA_APP_KEY w));
    [simpl|reflexivity].
  destruct (respond_adzuna w (adzuna_request w)) as [e|st items];
    [reflexivity|].
  destruct (st =? 200)%Z; [discriminate|reflexivity].
Qed.


(** C1 (as the code runs). When the profile is found, the deduplicated pool
    is not empty and the corpus built from the profile text and the
    candidate texts has an empty vocabulary, [fit_transform] raises its
    [ValueError] and, nothing catching it, the error leaves
    [match_internships]: no score is assigned and no response is built. *)
Theorem empty_vocabulary_is_raised
  (stop_words : list string)
  (kernel : list (list string) -> list string -> list string -> Q)
  (argsort : list Q -> list nat)
  (w : world) (student_id : string)
  (student : student_record) (others : list student_record) :
  respond_students w student_id = DbData (student :: others) ->
  all_internships w student <> [] ->
  vocabulary (map (analyze stop_words)
                  (corpus student (all_internships w student))) = [] ->
  match_internships stop_words kernel argsort (as_backend w) student_id
  = (uncaught empty_vocabulary, calls_after_profile w student_id student).
Proof.
  intros Hs Hne Hv.
  rewrite (match_internships_found _ _ _ _ _ _ _ Hs).
  unfold all_internships in Hne, Hv.
  rewrite (rank_empty_vocabulary _ _ _ _ _ _ _ _ Hne Hv). reflexivity.
Qed.

(** C5. When the profile query answers with no record, the endpoint returns
    the "No student found" error and the only call it has made is that
    profile query: neither the catalog nor a provider was asked. *)
Theorem profile_not_found_before_any_fetch
  (stop_words : list string)
  (kernel : list (list string) -> list string -> list string -> Q)
  (argsort : list Q -> list nat)
  (w : world) (student_id : string) :
  respond_students w student_id = DbData [] ->
  match_internships stop_words kernel argsort (as_backend w) student_id
  = (ProfileNotFound student_id, [students_select_eq_id student_id]).
Proof.
  intros Hs. apply match_internships_unknown. exact Hs.
Qed.


(** C7 (amended). A failed catalog read, and a provider without
    credentials, with a failed request or with a status other than 200, each
    contribute no candidate; and every error payload the endpoint returns
    is one of three: profile not found, no candidates, or the database
    error met while fetching the profile. *)
Theorem failures_absorbed_or_reported
  (stop_words : list string)
  (kernel : list (list string) -> list string -> list string -> Q)
  (argsort : list Q -> list nat)
  (w : world) (student_id : string) :
  (catalog_failed w = true -> internal_df w = []) /\
  (forall student, jsearch_failed w student = true ->
                   jsearch_list w student = []) /\
  (adzuna_failed w = true -> adzuna_list w = []) /\
  (forall msg,
      fst (match_internships stop_words kernel argsort (as_backend w) student_id)
      = error_payload msg ->
      error_payload msg = ProfileNotFound student_id \/
      error_payload msg = NoCandidates \/
      exists e, respond_students w student_id = DbRaise e /\
                error_payload msg = ProfileDatabaseError e).
Proof.
  split; [apply catalog_failure_absorbed|].
  split; [intros s; apply jsearch_failure_absorbed|].
  split; [apply adzuna_failure_absorbed|].
  intros msg.
  destruct (respond_students w student_id) as [e|[|student others]] eqn:Hs.
  - rewrite (match_internships_db_error _ _ _ _ _ _ Hs).
    simpl. intros H. right. right. exists e. split; [reflexivity|].
    symmetry. exact H.
  - rewrite (match_internships_unknown _ _ _ _ _ Hs).
    simpl. intros H. left. symmetry. exact H.
  - rewrite (match_internships_found _ _ _ _ _ _ _ Hs). simpl.
    destruct (rank_outcomes stop_words kernel argsort student_id student
                (internal_df w) (jsearch_list w student) (adzuna_list w))
      as [H|[H|[ms H]]]; rewrite H; intros E.
    + right. left. symmetry. exact E.
    + discriminate.
    + discriminate.
Qed.

(** ** The providers: how many results, which query *)

Lemma jsearch_items_length (w : world) (student : student_record) :
  (List.length (jsearch_items w student) <= 10)%nat.
Proof.
  unfold jsearch_items.
  destruct (respond_jsearch w (jsearch_url student)) as [e|st items];
    [simpl; lia|].
  destruct (st =? 200)%Z; [apply firstn_le_length|simpl; lia].
Qed.

Lemma jsearch_list_length (w : world) (student : student_record) :
  (List.length (jsearch_list w student) <= 10)%nat.
Proof.
  unfold jsearch_list. destruct (truthy (RAPIDAPI_KEY w)); [|simpl; lia].
  rewrite jsearch_append_length. simpl. apply jsearch_items_length.
Qed.

Lemma adzuna_list_length (w : world) :
  List.length (adzuna_list w)
  = if truthy (ADZUNA_APP_ID w) && truthy (ADZUNA_APP_KEY w)
    then List.length (adzuna_items w) else 0%nat.
Proof.
  unfold adzuna_list.
  destruct (truthy (ADZUNA_APP_ID w) && truthy (ADZUNA_APP_KEY w));
    [|reflexivity].
  rewrite adzuna_append_length. reflexivity.
Qed.

(** C8 (amended). JSearch: the adapter hands at most ten jobs to its
    normalisation loop and so contributes at most ten candidates, whatever
    the response holds.  Adzuna: the adapter asks for ten results per page
    and normalises every result of a 200 response, so it contributes at
    most ten candidates whenever the response holds at most ten. *)
Theorem provider_caps (w : world) (student : student_record) :
  (List.length (jsearch_items w student) <= 10)%nat /\
  (List.length (jsearch_list w student) <= 10)%nat /\
  results_per_page (adzuna_request w) = 10%Z /\
  (forall items,
      truthy (ADZUNA_APP_ID w) && truthy (ADZUNA_APP_KEY w) = true ->
      respond_adzuna w (adzuna_request w) = HttpResponse 200 items ->
      List.length (adzuna_list w) = List.length items) /\
  (forall status_code items,
      respond_adzuna w (adzuna_request w) = HttpResponse status_code items ->
      (List.length items <= 10)%nat ->
      (List.length (adzuna_list w) <= 10)%nat).
Proof.
  split; [apply jsearch_items_length|].
  split; [apply jsearch_list_length|].
  split; [reflexivity|]. split.
  - intros items Hk Hr. rewrite adzuna_list_length, Hk.
    unfold adzuna_items. rewrite Hr. reflexivity.
  - intros st items Hr Hlen. rewrite adzuna_list_length.
    destruct (truthy (ADZUNA_APP_ID w) && truthy (ADZUNA_APP_KEY w)); [|lia].
    unfold adzuna_items. rewrite Hr.
    destruct (st =? 200)%Z; [exact Hlen|simpl; lia].
Qed.

Lemma join_plus_empty (l : list string) :
  join "+" l = "" <-> l = [] \/ l = [""].
Proof.
  unfold join. split.
  - destruct l as [|x [|y r]]; simpl.
    + auto.
    + intros H. subst x. auto.
    + destruct x; simpl; discriminate.
  - intros [H|H]; subst l; reflexivity.
Qed.

(** C9 (amended). JSearch is queried with the profile's skills joined by
    "+", replaced by "internship" exactly when that joined string is empty
    (no skill, or a single empty one), and followed by "+internship"; Adzuna
    is always queried with the fixed term "internship", whatever the
    profile.  These are the queries of the calls the endpoint makes. *)
Theorem provider_queries
  (stop_words : list string)
  (kernel : list (list string) -> list string -> list string -> Q)
  (argsort : list Q -> list nat)
  (w : world) (student_id : string)
  (student : student_record) (others : list student_record) :
  respond_students w student_id = DbData (student :: others) ->
  (skills student = [] -> skills_query student = "internship") /\
  (join "+" (skills student) <> "" ->
   skills_query student = join "+" (skills student)) /\
  (join "+" (skills student) = "" <->
   skills student = [] \/ skills student = [""]) /\
  (join "+" (skills student) = "" -> skills_query student = "internship") /\
  jsearch_url student
  = ("https://jsearch.p.rapidapi.com/search?query=" ++ skills_query student
     ++ "+internship&page=1&num_pages=1")%string /\
  what (adzuna_request w) = "internship" /\
  forall c,
    In c (snd (match_internships stop_words kernel argsort (as_backend w) student_id)) ->
    match c with
    | jsearch_get u => u = jsearch_url student
    | adzuna_get p => what p = "internship"
    | _ => True
    end.
Proof.
  intros Hs.
  split; [intros H; unfold skills_query; rewrite H; reflexivity|].
  split.
  { unfold skills_query. destruct (join "+" (skills student)); simpl;
      [congruence|reflexivity]. }
  split; [apply join_plus_empty|].
  split; [intros H; unfold skills_query; rewrite H; reflexivity|].
  split; [reflexivity|]. split; [reflexivity|].
  intros c. rewrite (match_internships_found _ _ _ _ _ _ _ Hs).
  unfold calls_after_profile. simpl snd.
  destruct (truthy (RAPIDAPI_KEY w));
    destruct (truthy (ADZUNA_APP_ID w) && truthy (ADZUNA_APP_KEY w));
    simpl; intros H;
    repeat (destruct H as [H|H]; [subst c; simpl; auto|]);
    destruct H.
Qed.

(** ** Ranking *)

Lemma is_range_permutation_spec (n : nat) (idx : list nat) :
  is_range_permutation n idx = true ->
  Permutation idx (seq 0 n) /\ Forall (fun i => (i < n)%nat) idx.
Proof.
  unfold is_range_permutation. intros H.
  apply andb_true_iff in H. destruct H as [Hlen Hall].
  apply Nat.eqb_eq in Hlen. rewrite forallb_forall in Hall.
  assert (Hperm : Permutation (seq 0 n) idx).
  { apply NoDup_Permutation_bis.
    - apply seq_NoDup.
    - rewrite length_seq. lia.
    - intros i Hi. apply Hall in Hi. apply existsb_exists in Hi.
      destruct Hi as [j [Hj E]]. apply Nat.eqb_eq in E. subst j. exact Hj. }
  split; [symmetry; exact Hperm|].
  apply Forall_forall. intros i Hi.
  apply (Permutation_in _ (Permutation_sym Hperm)) in Hi.
  apply in_seq in Hi. lia.
Qed.

Lemma descending_snoc (m : list Q) (b a : Q) :
  descending (m ++ [b]) = true -> Qle_bool a b = true ->
  descending ((m ++ [b]) ++ [a]) = true.
Proof.
  induction m as [|c m IH]; simpl; intros Hd Hab.
  - rewrite Hab. reflexivity.
  - destruct m as [|d m]; simpl in *.
    + apply andb_true_iff in Hd. destruct Hd as [Hbc _].
      rewrite Hbc, Hab. reflexivity.
    + apply andb_true_iff in Hd. destruct Hd as [Hdc Hd].
      rewrite Hdc. simpl. apply IH; assumption.
Qed.

Lemma ascending_rev (l : list Q) :
  ascending l = true -> descending (rev l) = true.
Proof.
  induction l as [|a l IH]; [reflexivity|].
  destruct l as [|b r]; [reflexivity|].
  intros H. simpl ascending in H.
  apply andb_true_iff in H. destruct H as [Hab Hasc].
  change (rev (a :: b :: r)) with ((rev r ++ [b]) ++ [a]).
  apply descending_snoc; [|exact Hab].
  apply IH. exact Hasc.
Qed.

Lemma descending_firstn (n : nat) (l : list Q) :
  descending l = true -> descending (firstn n l) = true.
Proof.
  revert n. induction l as [|a l IH]; intros n H; [destruct n; reflexivity|].
  destruct n as [|n]; [reflexivity|].
  destruct l as [|b r]; [destruct n; reflexivity|].
  simpl descending in H. apply andb_true_iff in H. destruct H as [Hba Hd].
  destruct n as [|n]; [reflexivity|].
  specialize (IH (S n) Hd). simpl firstn in *. simpl descending.
  rewrite Hba. exact IH.
Qed.

Section Ranking.

Variable argsort : list Q -> list nat.

(** The scores of the sorted frame are the column reversed, ordered by
    [argsort] and reversed again. *)
Lemma sort_values_scores (df : list (internship * Q)) :
  map snd (sort_values_descending argsort df)
  = rev (take (rev (map snd df)) (argsort (rev (map snd df)))).
Proof.
  unfold sort_values_descending, nargsort_descending.
  rewrite <- take_map, take_rev. f_equal.
  rewrite take_take.
  - rewrite take_rev, take_seq_all. reflexivity.
  - apply Forall_forall. intros i Hi. apply in_rev, in_seq in Hi. lia.
Qed.

Lemma sort_values_permutation (df : list (internship * Q)) :
  is_range_permutation (List.length df) (argsort (rev (map snd df))) = true ->
  Permutation df (sort_values_descending argsort df).
Proof.
  intros H. apply is_range_permutation_spec in H. destruct H as [Hperm _].
  unfold sort_values_descending, nargsort_descending.
  rewrite length_map.
  set (R := rev (seq 0 (List.length df))).
  assert (HR : Permutation (take R (argsort (rev (map snd df)))) R).
  { assert (HRR : take R (seq 0 (List.length df)) = R).
    { replace (List.length df) with (List.length R)
        by (unfold R; rewrite length_rev, length_seq; reflexivity).
      apply take_seq_all. }
    rewrite <- HRR at 2. apply take_permutation. exact Hperm. }
  rewrite <- (take_seq_all df) at 1.
  apply take_permutation.
  rewrite <- Permutation_rev. symmetry.
  rewrite HR. unfold R. symmetry. apply Permutation_rev.
Qed.

Lemma results_scores (scored : list (internship * Q)) :
  map m_similarity (results argsort scored)
  = map snd (top_matches argsort scored).
Proof. unfold results. rewrite map_map. reflexivity. Qed.

End Ranking.

(** C2 (amended). Whenever [argsort] returns indices that sort the score
    column, the returned matches are the first ten rows of a rearrangement
    of the scored pool whose scores descend: there are at most ten of them
    (ten, or the whole pool when it is smaller) and their scores descend.
    Nothing is said of the order of rows with equal scores. *)
Theorem top_matches_sorted (argsort : list Q -> list nat)
  (scored : list (internship * Q)) :
  is_argsort (rev (map snd scored)) (argsort (rev (map snd scored))) = true ->
  (List.length (results argsort scored) <= 10)%nat /\
  List.length (results argsort scored) = Nat.min 10 (List.length scored) /\
  descending (map m_similarity (results argsort scored)) = true /\
  exists sorted,
    Permutation scored sorted /\
    descending (map snd sorted) = true /\
    results argsort scored = map to_record (firstn 10 sorted).
Proof.
  intros H. unfold is_argsort in H. apply andb_true_iff in H.
  destruct H as [Hperm Hasc]. rewrite length_rev, length_map in Hperm.
  pose proof (sort_values_permutation argsort scored Hperm) as HP.
  assert (Hdesc : descending (map snd (sort_values_descending argsort scored))
                  = true).
  { rewrite sort_values_scores. apply ascending_rev. exact Hasc. }
  assert (Hlen : List.length (results argsort scored)
                 = Nat.min 10 (List.length scored)).
  { unfold results, top_matches, head. rewrite length_map, length_firstn.
    rewrite <- (Permutation_length HP). reflexivity. }
  split; [rewrite Hlen; apply Nat.le_min_l|].
  split; [exact Hlen|]. split.
  - rewrite results_scores. unfold top_matches, head.
    rewrite <- firstn_map. apply descending_firstn. exact Hdesc.
  - exists (sort_values_descending argsort scored).
    split; [exact HP|]. split; [exact Hdesc|]. reflexivity.
Qed.

(** ** The properties at work on the sample data *)

Lemma empty_vocabulary_is_raised_witness :
  match_internships Sample.stop_words Sample.overlap Npy.npy_argsort
                    (as_backend Sample.w_stop_words) "42"
  = (uncaught empty_vocabulary,
     calls_after_profile Sample.w_stop_words "42" Sample.blank).
Proof.
  apply (empty_vocabulary_is_raised Sample.stop_words Sample.overlap
           Npy.npy_argsort Sample.w_stop_words "42" Sample.blank []).
  - reflexivity.
  - vm_compute. discriminate.
  - vm_compute. reflexivity.
Defined.

(** The claim of C2 fails for eighteen rows that all score zero: the
    indices numpy's quicksort returns do sort the column, yet the third and
    fourth matches are rows 16 and 15 of the pool, in that order. *)
Lemma equal_scores_reordered :
  Sample.ties <> [] /\
  is_argsort (rev (map snd Sample.ties))
             (Npy.npy_argsort (rev (map snd Sample.ties))) = true /\
  ~ stable_wrt Sample.ties (top_matches Npy.npy_argsort Sample.ties).
Proof.
  split; [discriminate|]. split; [vm_compute; reflexivity|].
  intros Hst.
  destruct (Hst 2%nat 3%nat (Sample.tie 16) (Sample.tie 15))
    as [i [j [Hlt [Hi Hj]]]].
  - lia.
  - vm_compute. reflexivity.
  - vm_compute. reflexivity.
  - reflexivity.
  - assert (Ei : i = 16%nat).
    { do 18 (destruct i as [|i];
             [try reflexivity; vm_compute in Hi; discriminate|]).
      destruct i; discriminate. }
    assert (Ej : j = 15%nat).
    { do 18 (destruct j as [|j];
             [try reflexivity; vm_compute in Hj; discriminate|]).
      destruct j; discriminate. }
    lia.
Qed.

Lemma top_matches_sorted_witness :
  is_argsort (rev (map snd Sample.three))
             (Npy.npy_argsort (rev (map snd Sample.three))) = true /\
  (List.length (results Npy.npy_argsort Sample.three) <= 10)%nat /\
  List.length (results Npy.npy_argsort Sample.three)
  = Nat.min 10 (List.length Sample.three) /\
  descending (map m_similarity (results Npy.npy_argsort Sample.three)) = true /\
  exists sorted,
    Permutation Sample.three sorted /\
    descending (map snd sorted) = true /\
    results Npy.npy_argsort Sample.three = map to_record (firstn 10 sorted).
Proof.
  split; [vm_compute; reflexivity|].
  apply (top_matches_sorted Npy.npy_argsort Sample.three).
  vm_compute. reflexivity.
Defined.

Lemma drop_duplicates_distinct_witness :
  (List.length (drop_duplicates Sample.pool) <= List.length Sample.pool)%nat /\
  ~ (title (internal_row (Sample.row "1" "Python Intern" "Build APIs" ["python"]))
     = title (internal_row (Sample.row "2" "Design Intern" "Draw logos" []))
     /\
     description (internal_row (Sample.row "1" "Python Intern" "Build APIs" ["python"]))
     = description (internal_row (Sample.row "2" "Design Intern" "Draw logos" []))).
Proof.
  destruct (drop_duplicates_distinct Sample.pool) as [Hlen Hdistinct].
  split; [exact Hlen|].
  apply (Hdistinct 0%nat 1%nat); [lia|reflexivity|reflexivity].
Defined.

Lemma first_seen_wins_witness :
  Sample.pool
  = internal_df Sample.w_all
    ++ map external_row (jsearch_list Sample.w_all Sample.ada)
    ++ map external_row (adzuna_list Sample.w_all) /\
  In Sample.first_catalog_row (internal_df Sample.w_all) /\
  In Sample.dup Sample.pool /\
  key_of Sample.dup = key_of Sample.first_catalog_row /\
  exists x,
    filter (same_key Sample.dup) (drop_duplicates Sample.pool) = [x] /\
    In x (internal_df Sample.w_all) /\ source x = supabase.
Proof.
  destruct (first_seen_wins Sample.w_all Sample.ada) as [Hpool [_ [Hcat _]]].
  assert (Hc : In Sample.first_catalog_row (internal_df Sample.w_all))
    by (left; reflexivity).
  assert (Hy : In Sample.dup Sample.pool)
    by (vm_compute; right; right; left; reflexivity).
  split; [exact Hpool|]. split; [exact Hc|]. split; [exact Hy|].
  split; [reflexivity|].
  apply (Hcat Sample.first_catalog_row Sample.dup Hc Hy). reflexivity.
Defined.

Lemma profile_not_found_before_any_fetch_witness :
  respond_students Sample.w_unknown "42" = DbData [] /\
  match_internships Sample.stop_words Sample.overlap Npy.npy_argsort
                    (as_backend Sample.w_unknown) "42"
  = (ProfileNotFound "42", [students_select_eq_id "42"]).
Proof.
  split; [reflexivity|].
  apply (profile_not_found_before_any_fetch Sample.stop_words Sample.overlap
           Npy.npy_argsort Sample.w_unknown "42").
  reflexivity.
Defined.


(** The claim of C7 fails when the profile query itself raises: the caller
    gets an error payload that is neither of the two it names. *)
Lemma profile_database_error_reported :
  fst (match_internships Sample.stop_words Sample.overlap Npy.npy_argsort
                         (as_backend Sample.w_db_down) "42")
  = ProfileDatabaseError "connection refused" /\
  ProfileDatabaseError "connection refused" <> ProfileNotFound "42" /\
  ProfileDatabaseError "connection refused" <> NoCandidates.
Proof.
  split; [reflexivity|]. split; discriminate.
Qed.

Lemma failures_absorbed_or_reported_witness :
  internal_df Sample.w_dark = [] /\
  jsearch_list Sample.w_dark Sample.ada = [] /\
  adzuna_list Sample.w_dark = [] /\
  (NoCandidates = ProfileNotFound "42" \/
   NoCandidates = NoCandidates \/
   exists e, respond_students Sample.w_dark "42" = DbRaise e /\
             NoCandidates = ProfileDatabaseError e).
Proof.
  destruct (failures_absorbed_or_reported Sample.stop_words Sample.overlap
              Npy.npy_argsort Sample.w_dark "42") as [Hc [Ha [Hb Herr]]].
  split; [apply Hc; reflexivity|].
  split; [apply Ha; reflexivity|].
  split; [apply Hb; reflexivity|].
  apply (Herr "No internships found (Supabase + APIs)"). reflexivity.
Defined.

(** The claim of C8 fails for Adzuna: a 200 response with eleven results
    yields eleven candidates. *)
Lemma adzuna_eleven_normalised :
  List.length (adzuna_items Sample.w_eleven) = 11%nat /\
  ~ (List.length (adzuna_list Sample.w_eleven) <= 10)%nat.
Proof.
  split; [reflexivity|]. vm_compute. intros H.
  repeat (apply le_S_n in H). inversion H.
Qed.

Lemma provider_caps_witness :
  (List.length (jsearch_items Sample.w_all Sample.ada) <= 10)%nat /\
  (List.length (jsearch_list Sample.w_all Sample.ada) <= 10)%nat /\
  results_per_page (adzuna_request Sample.w_all) = 10%Z /\
  List.length (adzuna_list Sample.w_all) = List.length Sample.adzuna_jobs /\
  (List.length (adzuna_list Sample.w_all) <= 10)%nat.
Proof.
  destruct (provider_caps Sample.w_all Sample.ada)
    as [H1 [H2 [H3 [H4 H5]]]].
  split; [exact H1|]. split; [exact H2|]. split; [exact H3|]. split.
  - apply H4; reflexivity.
  - apply (H5 200%Z Sample.adzuna_jobs); [reflexivity|simpl; lia].
Defined.

(** The claim of C9 fails for Adzuna: its query is "internship" for a
    profile that has skills. *)
Lemma adzuna_query_ignores_skills :
  ~ (what (adzuna_request Sample.w_all) = "internship" <->
     skills Sample.ada = []).
Proof.
  intros [H _]. specialize (H eq_refl). discriminate.
Qed.

Lemma provider_queries_witness :
  respond_students Sample.w_all "42" = DbData [Sample.ada] /\
  skills_query Sample.ada = "python+react" /\
  jsearch_url Sample.ada
  = "https://jsearch.p.rapidapi.com/search?query=python+react+internship&page=1&num_pages=1" /\
  what (adzuna_request Sample.w_all) = "internship".
Proof.
  destruct (provider_queries Sample.stop_words Sample.overlap Npy.npy_argsort
              Sample.w_all "42" Sample.ada [] eq_refl)
    as [_ [Hq [_ [_ [Hu [Hw _]]]]]].
  split; [reflexivity|]. split; [|split; [exact Hu|exact Hw]].
  apply Hq. discriminate.
Defined.

(** The scenario of a listing offered by the catalog and by JSearch: it is
    matched once, under the catalog tag. *)
Example shared_listing_matched_once :
  exists ms,
    fst (match_internships Sample.stop_words Sample.overlap
                           Npy.npy_argsort (as_backend Sample.w_all) "42")
    = matched "42" 4 ms /\
    map m_source
        (filter (fun m => if cell_eq_dec (m_title m) (Some "Python Intern")
                          then true else false) ms)
    = [supabase].
Proof. eexists. split; vm_compute; reflexivity. Qed.

(** * Further properties of the endpoint *)

(** ** The profile query and the profile text *)

(** X1. When the profile query raises, the endpoint returns the "Database
    error fetching student" payload carrying the error's text, and the
    only call it has made is that query. *)
Theorem profile_query_error_reported
  (stop_words : list string)
  (kernel : list (list string) -> list string -> list string -> Q)
  (argsort : list Q -> list nat)
  (w : world) (student_id e : string) :
  respond_students w student_id = DbRaise e ->
  match_internships stop_words kernel argsort (as_backend w) student_id
  = (error_payload ("Database error fetching student: " ++ e),
     [students_select_eq_id student_id]).
Proof.
  intros Hs. apply match_internships_db_error. exact Hs.
Qed.

Lemma profile_query_error_reported_witness :
  match_internships Sample.stop_words Sample.overlap Npy.npy_argsort
                    (as_backend Sample.w_db_down) "42"
  = (error_payload "Database error fetching student: connection refused",
     [students_select_eq_id "42"]).
Proof.
  apply (profile_query_error_reported Sample.stop_words Sample.overlap
           Npy.npy_argsort Sample.w_db_down "42" "connection refused").
  reflexivity.
Defined.

Lemma lower_not_empty (a b : string) : lower (a ++ " " ++ b) <> "".
Proof. destruct a; simpl; discriminate. Qed.

(** X2. Once the skills are joined, the profile text is never the empty
    string: it always holds the space that separates the skills from the
    biography.  A profile with no skill and no (or an empty) biography has
    the text " ". *)
Theorem student_text_never_empty (student : student_record) :
  student_text student <> "" /\
  (skills student = [] -> or_empty (bio student) = "" ->
   student_text student = " ").
Proof.
  split; [apply lower_not_empty|].
  intros Hs Hb. unfold student_text. rewrite Hs, Hb. reflexivity.
Qed.

Lemma student_text_never_empty_witness :
  student_text Sample.blank <> "" /\ student_text Sample.blank = " ".
Proof.
  destruct (student_text_never_empty Sample.blank) as [Hne Hblank].
  split; [exact Hne|]. apply Hblank; reflexivity.
Defined.

(** ** The calls of a request *)


Lemma profile_of_none (row : student_row) :
  profile_of row = None <-> skills_field row = LNull.
Proof.
  unfold profile_of, joinable.
  destruct (skills_field row); split; congruence.
Qed.



(** ** Degrading gracefully *)

(** X4. The outcome depends on the world only through the first record of
    the profile query and the candidates each source contributes: two
    worlds that agree on these give the same outcome.  So a source that
    failed is told apart from a source that had nothing to offer by the
    calls made, never by the result, and later profile records are
    ignored. *)
Theorem outcome_depends_on_contributions
  (stop_words : list string)
  (kernel : list (list string) -> list string -> list string -> Q)
  (argsort : list Q -> list nat)
  (w w' : world) (student_id : string)
  (student : student_record) (others others' : list student_record) :
  respond_students w student_id = DbData (student :: others) ->
  respond_students w' student_id = DbData (student :: others') ->
  internal_df w = internal_df w' ->
  jsearch_list w student = jsearch_list w' student ->
  adzuna_list w = adzuna_list w' ->
  fst (match_internships stop_words kernel argsort (as_backend w) student_id)
  = fst (match_internships stop_words kernel argsort (as_backend w') student_id).
Proof.
  intros Hs Hs' Hc Ha Hb.
  rewrite (match_internships_found _ _ _ _ _ _ _ Hs).
  rewrite (match_internships_found _ _ _ _ _ _ _ Hs').
  rewrite Hc, Ha, Hb. reflexivity.
Qed.

Lemma outcome_depends_on_contributions_witness :
  fst (match_internships Sample.stop_words Sample.overlap Npy.npy_argsort
                         (as_backend Sample.w_catalog_only) "42")
  = fst (match_internships Sample.stop_words Sample.overlap Npy.npy_argsort
                           (as_backend Sample.w_providers_down) "42").
Proof.
  apply (outcome_depends_on_contributions Sample.stop_words Sample.overlap
           Npy.npy_argsort Sample.w_catalog_only Sample.w_providers_down
           "42" Sample.ada [] [Sample.blank]);
    reflexivity.
Defined.





(** ** Deduplication once more *)

Lemma drop_seen_fixed (seen : list dedup_key) (df : list internship) :
  (forall x, In x df -> ~ In (key_of x) seen) ->
  NoDup (map key_of df) ->
  drop_seen seen df = df.
Proof.
  revert seen. induction df as [|x df IH]; intros seen Hfresh Hnd;
    [reflexivity|].
  simpl. inversion Hnd as [|? ? Hx Hnd']; subst.
  destruct (in_dec dedup_key_eq_dec (key_of x) seen) as [H|H].
  - exfalso. apply (Hfresh x); [left; reflexivity|exact H].
  - f_equal. apply IH; [|exact Hnd'].
    intros y Hy [E|E].
    + apply Hx. rewrite E. apply in_map. exact Hy.
    + apply (Hfresh y); [right; exact Hy|exact E].
Qed.

Lemma drop_seen_keys (seen : list dedup_key) (df : list internship)
  (k : dedup_key) :
  In k seen \/ In k (map key_of (drop_seen seen df))
  <-> In k seen \/ In k (map key_of df).
Proof.
  revert seen. induction df as [|x df IH]; intros seen; simpl; [tauto|].
  destruct (in_dec dedup_key_eq_dec (key_of x) seen) as [H|H].
  - rewrite IH. split; [tauto|].
    intros [E|[E|E]]; [tauto|subst k; tauto|tauto].
  - simpl. specialize (IH (key_of x :: seen)). simpl in IH. tauto.
Qed.

(** X6. Dropping duplicates changes nothing the second time, leaves a pool
    without repeated (title, description) as it is, and keeps every
    (title, description) of the pool. *)
Theorem drop_duplicates_idempotent (pool : list internship) :
  drop_duplicates (drop_duplicates pool) = drop_duplicates pool /\
  (NoDup (map key_of pool) -> drop_duplicates pool = pool) /\
  (forall k, In k (map key_of (drop_duplicates pool))
             <-> In k (map key_of pool)).
Proof.
  assert (Hfix : forall df, NoDup (map key_of df) -> drop_duplicates df = df).
  { intros df Hnd. apply drop_seen_fixed; [intros x _ []|exact Hnd]. }
  split; [apply Hfix, drop_seen_NoDup|]. split; [apply Hfix|].
  intros k. pose proof (drop_seen_keys [] pool k) as H. simpl in H.
  unfold drop_duplicates. tauto.
Qed.

Lemma drop_duplicates_idempotent_witness :
  drop_duplicates (drop_duplicates Sample.pool) = drop_duplicates Sample.pool /\
  drop_duplicates (firstn 2 Sample.pool) = firstn 2 Sample.pool /\
  In (key_of Sample.dup) (map key_of (drop_duplicates Sample.pool)).
Proof.
  destruct (drop_duplicates_idempotent Sample.pool) as [Hid [_ Hkeys]].
  destruct (drop_duplicates_idempotent (firstn 2 Sample.pool))
    as [_ [Hfix _]].
  split; [exact Hid|]. split.
  - apply Hfix. vm_compute.
    repeat (constructor; [simpl; intuition discriminate|]). constructor.
  - apply Hkeys. vm_compute. right. right. left. reflexivity.
Defined.

(** ** Normalising provider results *)

Lemma nth_error_combine_seq {A : Type} (a : nat) (l : list A) (k : nat) (x : A) :
  nth_error l k = Some x ->
  nth_error (combine (seq a (List.length l)) l) k = Some ((a + k)%nat, x).
Proof.
  revert a k. induction l as [|y l IH]; intros a k H; [destruct k; discriminate|].
  destruct k as [|k]; simpl in *.
  - inversion H. rewrite Nat.add_0_r. reflexivity.
  - rewrite (IH (S a) k H). f_equal. f_equal. lia.
Qed.

(** The append loop numbers the jobs from the length of the list so far. *)
Lemma jsearch_append_indexed (acc : list listing) (jobs : list jsearch_job) :
  jsearch_append acc jobs
  = acc ++ map (fun p => jsearch_entry (fst p) (snd p))
               (combine (seq (List.length acc) (List.length jobs)) jobs).
Proof.
  revert acc. induction jobs as [|job jobs IH]; intros acc; simpl.
  - rewrite app_nil_r. reflexivity.
  - rewrite IH, <- app_assoc, length_app, Nat.add_1_r. reflexivity.
Qed.

Lemma adzuna_append_indexed (acc : list listing) (jobs : list adzuna_job) :
  adzuna_append acc jobs
  = acc ++ map (fun p => adzuna_entry (fst p) (snd p))
               (combine (seq (List.length acc) (List.length jobs)) jobs).
Proof.
  revert acc. induction jobs as [|job jobs IH]; intros acc; simpl.
  - rewrite app_nil_r. reflexivity.
  - rewrite IH, <- app_assoc, length_app, Nat.add_1_r. reflexivity.
Qed.

Lemma jsearch_append_nth (jobs : list jsearch_job) (k : nat) (job : jsearch_job) :
  nth_error jobs k = Some job ->
  nth_error (jsearch_append [] jobs) k = Some (jsearch_entry k job).
Proof.
  intros H. rewrite jsearch_append_indexed. cbn [app List.length].
  rewrite nth_error_map, (nth_error_combine_seq 0 jobs k job H). reflexivity.
Qed.

Lemma adzuna_append_nth (jobs : list adzuna_job) (k : nat) (job : adzuna_job) :
  nth_error jobs k = Some job ->
  nth_error (adzuna_append [] jobs) k = Some (adzuna_entry k job).
Proof.
  intros H. rewrite adzuna_append_indexed. cbn [app List.length].
  rewrite nth_error_map, (nth_error_combine_seq 0 jobs k job H). reflexivity.
Qed.

Lemma nth_error_firstn_below {A : Type} (n k : nat) (l : list A) :
  (k < n)%nat -> nth_error (firstn n l) k = nth_error l k.
Proof.
  revert k l. induction n as [|n IH]; intros k l H; [lia|].
  destruct l as [|x l]; [destruct k; reflexivity|].
  destruct k as [|k]; [reflexivity|]. simpl. apply IH. lia.
Qed.

(** X7. With a key and a 200 response, JSearch contributes as many
    candidates as the response has results, up to ten, in the order of the
    response: candidate [k] is built from result [k], and a result
    without "job_id" gets the identifier "j_k" of its position. *)
Theorem jsearch_candidates_by_position (w : world) (student : student_record)
  (items : list jsearch_job) :
  truthy (RAPIDAPI_KEY w) = true ->
  respond_jsearch w (jsearch_url student) = HttpResponse 200 items ->
  List.length (jsearch_list w student) = Nat.min 10 (List.length items) /\
  (forall k job,
      (k < 10)%nat -> nth_error items k = Some job ->
      nth_error (jsearch_list w student) k = Some (jsearch_entry k job)) /\
  (forall k job,
      (k < 10)%nat -> nth_error items k = Some job -> job_id job = JAbsent ->
      option_map l_id (nth_error (jsearch_list w student) k)
      = Some (Some ("j_" ++ str_of_nat k)%string)).
Proof.
  intros Hk Hr.
  assert (Hlist : jsearch_list w student = jsearch_append [] (firstn 10 items)).
  { unfold jsearch_list, jsearch_items. rewrite Hk, Hr. reflexivity. }
  assert (Hnth : forall k job,
             (k < 10)%nat -> nth_error items k = Some job ->
             nth_error (jsearch_list w student) k = Some (jsearch_entry k job)).
  { intros k job Hlt Hjob. rewrite Hlist. apply jsearch_append_nth.
    rewrite nth_error_firstn_below; assumption. }
  split; [rewrite Hlist, jsearch_append_length, length_firstn; reflexivity|].
  split; [exact Hnth|].
  intros k job Hlt Hjob Hid. rewrite (Hnth k job Hlt Hjob). simpl.
  unfold jsearch_entry. simpl. rewrite Hid. reflexivity.
Qed.

Lemma jsearch_candidates_by_position_witness :
  List.length (jsearch_list Sample.w_all Sample.ada) = 2%nat /\
  nth_error (jsearch_list Sample.w_all Sample.ada) 1
  = Some (jsearch_entry 1 (Sample.jjob "React Intern" "Build the UI")) /\
  option_map l_id (nth_error (jsearch_list Sample.w_all Sample.ada) 1)
  = Some (Some "j_1").
Proof.
  destruct (jsearch_candidates_by_position Sample.w_all Sample.ada
              Sample.jsearch_jobs eq_refl eq_refl) as [Hlen [Hnth Hid]].
  split; [exact Hlen|]. split.
  - apply Hnth; [lia|reflexivity].
  - apply (Hid 1%nat (Sample.jjob "React Intern" "Build the UI"));
      [lia|reflexivity|reflexivity].
Defined.

(** X8. With both credentials and a 200 response, Adzuna contributes one
    candidate per result, in the order of the response: candidate [k] is
    built from result [k], its identifier always starts with "adz_", and a
    result without "id" gets "adz_k". *)
Theorem adzuna_candidates_by_position (w : world) (items : list adzuna_job) :
  truthy (ADZUNA_APP_ID w) && truthy (ADZUNA_APP_KEY w) = true ->
  respond_adzuna w (adzuna_request w) = HttpResponse 200 items ->
  (forall k job,
      nth_error items k = Some job ->
      nth_error (adzuna_list w) k = Some (adzuna_entry k job)) /\
  (forall x, In x (adzuna_list w) ->
             exists rest, l_id x = Some ("adz_" ++ rest)%string) /\
  (forall k job,
      nth_error items k = Some job -> adz_id job = JAbsent ->
      option_map l_id (nth_error (adzuna_list w) k)
      = Some (Some ("adz_" ++ str_of_nat k)%string)).
Proof.
  intros Hk Hr.
  assert (Hlist : adzuna_list w = adzuna_append [] items).
  { unfold adzuna_list, adzuna_items. rewrite Hk, Hr. reflexivity. }
  assert (Hnth : forall k job,
             nth_error items k = Some job ->
             nth_error (adzuna_list w) k = Some (adzuna_entry k job)).
  { intros k job Hjob. rewrite Hlist. apply adzuna_append_nth. exact Hjob. }
  split; [exact Hnth|]. split.
  - intros x Hx. rewrite Hlist, adzuna_append_indexed in Hx. simpl in Hx.
    apply in_map_iff in Hx. destruct Hx as [[n job] [Hx _]]. subst x.
    simpl. eexists. reflexivity.
  - intros k job Hjob Hid. rewrite (Hnth k job Hjob). simpl.
    rewrite Hid. reflexivity.
Qed.

Lemma adzuna_candidates_by_position_witness :
  nth_error (adzuna_list Sample.w_all) 1
  = Some (adzuna_entry 1 (Sample.ajob "78" "Data Intern" "python")) /\
  exists rest,
    l_id (adzuna_entry 1 (Sample.ajob "78" "Data Intern" "python"))
    = Some ("adz_" ++ rest)%string.
Proof.
  destruct (adzuna_candidates_by_position Sample.w_all Sample.adzuna_jobs
              eq_refl eq_refl) as [Hnth [Hid _]].
  split; [apply Hnth; reflexivity|].
  apply Hid. vm_compute. right. left. reflexivity.
Defined.

(** ** The response *)

Lemma take_In {A : Type} (df : list A) (idx : list nat) (y : A) :
  In y (take df idx) -> In y df.
Proof.
  induction idx as [|i idx IH]; [intros []|].
  rewrite take_cons. intros H. apply in_app_or in H. destruct H as [H|H].
  - destruct (nth_error df i) as [x|] eqn:E; [|destruct H].
    destruct H as [H|[]]. subst y. apply (nth_error_In _ _ E).
  - apply IH, H.
Qed.

Lemma firstn_In {A : Type} (n : nat) (l : list A) (y : A) :
  In y (firstn n l) -> In y l.
Proof.
  intros H. rewrite <- (firstn_skipn n l). apply in_or_app. left. exact H.
Qed.

Lemma combine_map_self {A B : Type} (g : A -> B) (l : list A) :
  combine l (map g l) = map (fun x => (x, g x)) l.
Proof. induction l as [|x l IH]; simpl; congruence. Qed.

Lemma NoDup_firstn {A : Type} (n : nat) (l : list A) :
  NoDup l -> NoDup (firstn n l).
Proof.
  revert n. induction l as [|x l IH]; intros n H; [destruct n; constructor|].
  destruct n as [|n]; [constructor|]. simpl.
  inversion H as [|? ? Hx Hl]; subst. constructor; [|apply IH, Hl].
  intros Hin. apply Hx. apply (firstn_In n l x Hin).
Qed.

Section Response.

Variable ENGLISH_STOP_WORDS : list string.
Variable tfidf_cosine : list (list string) -> list string -> list string -> Q.
Variable argsort : list Q -> list nat.

(** The score the kernel gives a candidate against the profile, within the
    corpus of the request. *)
Let score (w : world) (student : student_record) (x : internship) : Q :=
  tfidf_cosine
    (map (analyze ENGLISH_STOP_WORDS)
         (corpus student (all_internships w student)))
    (analyze ENGLISH_STOP_WORDS (student_text student))
    (analyze ENGLISH_STOP_WORDS (text x)).

(** The scores are attached to the rows position by position. *)
Lemma scored_pool (w : world) (student : student_record) :
  combine (all_internships w student)
          (cosine_similarity tfidf_cosine
             (map (analyze ENGLISH_STOP_WORDS)
                  (corpus student (all_internships w student))))
  = map (fun x => (x, score w student x)) (all_internships w student).
Proof.
  unfold cosine_similarity, score. unfold corpus at 2 3. simpl hd. simpl tl.
  rewrite !map_map. apply combine_map_self.
Qed.

(** A list of matches is only returned for a found profile, a pool that is
    not empty and a vocabulary that is not empty. *)
Lemma matched_inv (w : world) (student_id sid : string) (n : nat)
  (ms : list match_record) :
  fst (match_internships ENGLISH_STOP_WORDS tfidf_cosine argsort (as_backend w) student_id)
  = matched sid n ms ->
  exists student others,
    respond_students w student_id = DbData (student :: others) /\
    sid = student_id /\ n = List.length ms /\
    all_internships w student <> [] /\
    ms = results argsort
           (map (fun x => (x, score w student x)) (all_internships w student)).
Proof.
  destruct (respond_students w student_id) as [e|[|student others]] eqn:Hs.
  - rewrite (match_internships_db_error _ _ _ _ _ _ Hs). discriminate.
  - rewrite (match_internships_unknown _ _ _ _ _ Hs). discriminate.
  - rewrite (match_internships_found _ _ _ _ _ _ _ Hs).
    assert (Hpool : all_internships w student = [] \/
                    all_internships w student <> []).
    { destruct (all_internships w student); [left|right]; congruence. }
    destruct Hpool as [Hpool|Hpool].
    { rewrite (rank_empty_pool _ _ _ _ _ _ _ _ Hpool). discriminate. }
    set (docs := map (analyze ENGLISH_STOP_WORDS)
                     (corpus student (all_internships w student))).
    assert (Hvoc : vocabulary docs = [] \/ vocabulary docs <> []).
    { destruct (vocabulary docs); [left|right]; congruence. }
    destruct Hvoc as [Hvoc|Hvoc].
    { rewrite (rank_empty_vocabulary _ _ _ _ _ _ _ _ Hpool Hvoc).
      discriminate. }
    rewrite (rank_matched ENGLISH_STOP_WORDS tfidf_cosine argsort student_id
               student _ _ _ Hpool Hvoc).
    fold (all_internships w student). fold docs. simpl.
    intros H. inversion H. subst sid n ms.
    exists student, others.
    split; [reflexivity|]. split; [reflexivity|]. split; [reflexivity|].
    split; [exact Hpool|].
    unfold docs. rewrite scored_pool. reflexivity.
Qed.

End Response.

(** X9. Every returned match is a row of the deduplicated pool together
    with the score the kernel gives that very row against the profile
    text: identifiers, titles, tags and links are never mixed between
    candidates, and no match is made up. *)
Theorem matches_come_from_pool
  (stop_words : list string)
  (kernel : list (list string) -> list string -> list string -> Q)
  (argsort : list Q -> list nat)
  (w : world) (student_id sid : string) (n : nat) (ms : list match_record)
  (m : match_record) :
  fst (match_internships stop_words kernel argsort (as_backend w) student_id)
  = matched sid n ms ->
  In m ms ->
  exists student others x,
    respond_students w student_id = DbData (student :: others) /\
    In x (all_internships w student) /\
    m = to_record
          (x, kernel (map (analyze stop_words)
                          (corpus student (all_internships w student)))
                     (analyze stop_words (student_text student))
                     (analyze stop_words (text x))).
Proof.
  intros H Hm.
  destruct (matched_inv _ _ _ _ _ _ _ _ H)
    as [student [others [Hs [_ [_ [_ Hms]]]]]].
  exists student, others. subst ms.
  unfold results, top_matches, head, sort_values_descending in Hm.
  apply in_map_iff in Hm. destruct Hm as [[x q] [Hm Hin]].
  apply firstn_In, take_In in Hin.
  apply in_map_iff in Hin. destruct Hin as [x' [E Hx]].
  inversion E. subst x' q.
  exists x. split; [exact Hs|]. split; [exact Hx|]. symmetry. exact Hm.
Qed.

(** X10. A returned list of matches echoes the requested identifier,
    reports as [matches_found] the length of the list, and never holds
    more than ten matches. *)
Theorem response_shape
  (stop_words : list string)
  (kernel : list (list string) -> list string -> list string -> Q)
  (argsort : list Q -> list nat)
  (w : world) (student_id sid : string) (n : nat) (ms : list match_record) :
  fst (match_internships stop_words kernel argsort (as_backend w) student_id)
  = matched sid n ms ->
  sid = student_id /\ n = List.length ms /\ (n <= 10)%nat.
Proof.
  intros H.
  destruct (matched_inv _ _ _ _ _ _ _ _ H)
    as [student [others [_ [Hid [Hn [_ Hms]]]]]].
  split; [exact Hid|]. split; [exact Hn|].
  rewrite Hn, Hms. unfold results, top_matches, head.
  rewrite length_map. apply firstn_le_length.
Qed.

(** X11. Whenever [argsort] returns indices that sort the score column, a
    returned list holds ten matches, or one per row of the deduplicated
    pool when there are fewer: scoring discards no candidate, the list is
    never empty, and no two matches share a (title, description). *)
Theorem matches_count_and_distinct
  (stop_words : list string)
  (kernel : list (list string) -> list string -> list string -> Q)
  (argsort : list Q -> list nat)
  (w : world) (student_id sid : string) (n : nat) (ms : list match_record)
  (student : student_record) (others : list student_record) :
  respond_students w student_id = DbData (student :: others) ->
  (let column :=
     cosine_similarity kernel
       (map (analyze stop_words) (corpus student (all_internships w student)))
   in is_argsort (rev column) (argsort (rev column)) = true) ->
  fst (match_internships stop_words kernel argsort (as_backend w) student_id)
  = matched sid n ms ->
  n = Nat.min 10 (List.length (all_internships w student)) /\
  (1 <= n)%nat /\
  NoDup (map (fun m => (m_title m, m_description m)) ms).
Proof.
  intros Hs Hsort H.
  destruct (matched_inv _ _ _ _ _ _ _ _ H)
    as [student' [others' [Hs' [_ [Hn [Hne Hms]]]]]].
  rewrite Hs in Hs'. inversion Hs'. subst student' others'. clear Hs'.
  set (pool := all_internships w student) in *.
  set (scored := map (fun x => (x, kernel
                   (map (analyze stop_words) (corpus student pool))
                   (analyze stop_words (student_text student))
                   (analyze stop_words (text x)))) pool) in *.
  assert (Hscored : scored
            = combine pool (cosine_similarity kernel
                (map (analyze stop_words) (corpus student pool)))).
  { symmetry. apply scored_pool. }
  assert (Hcol : map snd scored
            = cosine_similarity kernel
                (map (analyze stop_words) (corpus student pool))).
  { unfold scored, cosine_similarity. unfold corpus at 2. simpl hd. simpl tl.
    rewrite !map_map. reflexivity. }
  assert (Hfst : map fst scored = pool).
  { unfold scored. rewrite map_map. simpl. apply map_id. }
  cbv zeta in Hsort. rewrite <- Hcol in Hsort.
  unfold is_argsort in Hsort. apply andb_true_iff in Hsort.
  destruct Hsort as [Hperm _]. rewrite length_rev, length_map in Hperm.
  pose proof (sort_values_permutation argsort scored Hperm) as HP.
  assert (Hlen : n = Nat.min 10 (List.length pool)).
  { rewrite Hn, Hms. unfold results, top_matches, head.
    rewrite length_map, length_firstn, <- (Permutation_length HP).
    unfold scored. rewrite length_map. reflexivity. }
  split; [exact Hlen|]. split.
  - rewrite Hlen. destruct pool; [congruence|]. simpl List.length. lia.
  - rewrite Hms. unfold results, top_matches, head.
    rewrite map_map.
    replace (map (fun x => (m_title (to_record x), m_description (to_record x)))
                 (firstn 10 (sort_values_descending argsort scored)))
      with (firstn 10 (map key_of
                           (map fst (sort_values_descending argsort scored))))
      by (rewrite map_map, firstn_map; reflexivity).
    apply NoDup_firstn.
    apply (Permutation_NoDup
             (l := map key_of (map fst scored))).
    + apply Permutation_map, Permutation_map. exact HP.
    + rewrite Hfst. apply drop_seen_NoDup.
Qed.

Lemma matches_come_from_pool_witness :
  exists ms m,
    fst (match_internships Sample.stop_words Sample.overlap Npy.npy_argsort
                           (as_backend Sample.w_all) "42") = matched "42" 4 ms /\
    In m ms /\
    exists student others x,
      respond_students Sample.w_all "42" = DbData (student :: others) /\
      In x (all_internships Sample.w_all student) /\
      m = to_record
            (x, Sample.overlap
                  (map (analyze Sample.stop_words)
                       (corpus student (all_internships Sample.w_all student)))
                  (analyze Sample.stop_words (student_text student))
                  (analyze Sample.stop_words (text x))).
Proof.
  eexists. eexists.
  split; [vm_compute; reflexivity|].
  split; [left; reflexivity|].
  eapply (matches_come_from_pool Sample.stop_words Sample.overlap
            Npy.npy_argsort Sample.w_all "42" "42" 4).
  - vm_compute. reflexivity.
  - left. reflexivity.
Defined.

Lemma response_shape_witness :
  exists ms,
    fst (match_internships Sample.stop_words Sample.overlap Npy.npy_argsort
                           (as_backend Sample.w_all) "42") = matched "42" 4 ms /\
    "42" = "42" /\ 4%nat = List.length ms /\ (4 <= 10)%nat.
Proof.
  eexists. split; [vm_compute; reflexivity|].
  eapply (response_shape Sample.stop_words Sample.overlap Npy.npy_argsort
            Sample.w_all "42" "42" 4).
  vm_compute. reflexivity.
Defined.

Lemma matches_count_and_distinct_witness :
  exists ms,
    fst (match_internships Sample.stop_words Sample.overlap Npy.npy_argsort
                           (as_backend Sample.w_all) "42") = matched "42" 4 ms /\
    4%nat = Nat.min 10 (List.length (all_internships Sample.w_all Sample.ada)) /\
    (1 <= 4)%nat /\
    NoDup (map (fun m => (m_title m, m_description m)) ms).
Proof.
  eexists. split; [vm_compute; reflexivity|].
  eapply (matches_count_and_distinct Sample.stop_words Sample.overlap
            Npy.npy_argsort Sample.w_all "42" "42" 4 _ Sample.ada []).
  - reflexivity.
  - vm_compute. reflexivity.
  - vm_compute. reflexivity.
Defined.

(** ** When the vectorizer's error gets out *)





(** ** Null skill columns *)

(** X16. A found profile whose skills are null ends the request at line
    63: the [TypeError] of [" ".join(None)] leaves the endpoint, and the
    only call made is the profile query, so neither the catalog nor a
    provider is read. *)
Theorem null_skills_raise
  (stop_words : list string)
  (kernel : list (list string) -> list string -> list string -> Q)
  (argsort : list Q -> list nat)
  (b : backend) (student_id : string)
  (row : student_row) (others : list student_row) :
  respond_students b student_id = DbData (row :: others) ->
  skills_field row = LNull ->
  match_internships stop_words kernel argsort b student_id
  = (uncaught (TypeError "can only join an iterable"),
     [students_select_eq_id student_id]).
Proof.
  intros Hs Hn. apply (backend_null_skills _ _ _ _ _ _ _ Hs).
  apply profile_of_none. exact Hn.
Qed.

Lemma null_skills_raise_witness :
  match_internships Sample.stop_words Sample.overlap Npy.npy_argsort
                    Sample.b_null_skills "42"
  = (uncaught (TypeError "can only join an iterable"),
     [students_select_eq_id "42"]).
Proof.
  apply (null_skills_raise Sample.stop_words Sample.overlap Npy.npy_argsort
           Sample.b_null_skills "42"
           {| skills_field := LNull; bio_field := Some "Frontend developer" |}
           []);
    reflexivity.
Defined.





(** ** Texts are lower-case *)

Lemma lower_ascii_idempotent (c : ascii) :
  lower_ascii (lower_ascii c) = lower_ascii c.
Proof. destruct c as [[] [] [] [] [] [] [] []]; reflexivity. Qed.

Lemma lower_idempotent (s : string) : lower (lower s) = lower s.
Proof.
  induction s as [|c s IH]; simpl; [reflexivity|].
  rewrite lower_ascii_idempotent, IH. reflexivity.
Qed.

(** X13. The profile text and the text of every aggregated candidate are
    already lower-case (lower-casing them again changes nothing), so the
    analyzer's own lower-casing has no effect on them. *)
Theorem texts_are_lower_case (stop_words : list string) (w : world)
  (student : student_record) :
  lower (student_text student) = student_text student /\
  forall x,
    In x (aggregate (internal_df w) (jsearch_list w student) (adzuna_list w)) ->
    lower (text x) = text x /\
    analyze stop_words (text x)
    = filter (fun tok => negb (existsb (String.eqb tok) stop_words))
             (tokenize (text x)).
Proof.
  split; [apply lower_idempotent|].
  intros x Hx.
  assert (H : lower (text x) = text x).
  { rewrite world_aggregate in Hx.
    apply in_app_or in Hx. destruct Hx as [Hx|Hx].
    - unfold internal_df in Hx. apply in_map_iff in Hx.
      destruct Hx as [r [E _]]. subst x. apply lower_idempotent.
    - rewrite <- map_app in Hx. apply in_map_iff in Hx.
      destruct Hx as [l [E _]]. subst x. apply lower_idempotent. }
  split; [exact H|]. unfold analyze. rewrite H. reflexivity.
Qed.

Lemma texts_are_lower_case_witness :
  In Sample.dup Sample.pool /\
  lower (text Sample.dup) = text Sample.dup /\
  analyze Sample.stop_words (text Sample.dup)
  = filter (fun tok => negb (existsb (String.eqb tok) Sample.stop_words))
           (tokenize (text Sample.dup)).
Proof.
  assert (Hin : In Sample.dup Sample.pool).
  { vm_compute. right. right. left. reflexivity. }
  split; [exact Hin|].
  destruct (texts_are_lower_case Sample.stop_words Sample.w_all Sample.ada)
    as [_ H].
  apply H. exact Hin.
Defined.

(** ** Tags, links and letter case *)

Lemma matched_rows
  (stop_words : list string)
  (kernel : list (list string) -> list string -> list string -> Q)
  (argsort : list Q -> list nat)
  (w : world) (student_id sid : string) (n : nat) (ms : list match_record)
  (m : match_record) :
  fst (match_internships stop_words kernel argsort (as_backend w) student_id)
  = matched sid n ms ->
  In m ms ->
  exists student others x q,
    respond_students w student_id = DbData (student :: others) /\
    In x (aggregate (internal_df w) (jsearch_list w student) (adzuna_list w)) /\
    m = to_record (x, q).
Proof.
  intros H Hm.
  destruct (matched_inv _ _ _ _ _ _ _ _ H)
    as [student [others [Hs [_ [_ [_ Hms]]]]]].
  subst ms. unfold results, top_matches, head, sort_values_descending in Hm.
  apply in_map_iff in Hm. destruct Hm as [[x q] [Hm Hin]].
  apply firstn_In, take_In in Hin.
  apply in_map_iff in Hin. destruct Hin as [x' [E Hx]]. inversion E. subst x'.
  apply drop_seen_In in Hx. destruct Hx as [Hx _].
  exists student, others, x, q. split; [exact Hs|]. split; [exact Hx|].
  symmetry. exact Hm.
Qed.

(** X14. In a returned list, a match tagged "supabase" is a row of the
    catalog, with that row's identifier, title and description and with an
    empty link; any other match is a candidate of JSearch or Adzuna with
    that candidate's tag and link. *)
Theorem match_tags_and_links
  (stop_words : list string)
  (kernel : list (list string) -> list string -> list string -> Q)
  (argsort : list Q -> list nat)
  (w : world) (student_id sid : string) (n : nat) (ms : list match_record)
  (m : match_record) :
  fst (match_internships stop_words kernel argsort (as_backend w) student_id)
  = matched sid n ms ->
  In m ms ->
  (m_source m = supabase ->
   m_url m = Some "" /\
   exists r, In r (internal_data w) /\ m_id m = Some (row_id r) /\
             m_title m = row_title r /\ m_description m = row_description r) /\
  (m_source m <> supabase ->
   exists student others c,
     respond_students w student_id = DbData (student :: others) /\
     In c (jsearch_list w student ++ adzuna_list w) /\
     m_source m = l_source c /\ m_url m = l_url c /\ m_id m = l_id c /\
     l_source c <> supabase).
Proof.
  intros H Hm.
  destruct (matched_rows _ _ _ _ _ _ _ _ _ H Hm)
    as [student [others [x [q [Hs [Hx E]]]]]].
  subst m. simpl.
  destruct (world_sources w student) as [_ [Ha Hb]].
  rewrite Forall_forall in Ha, Hb.
  rewrite world_aggregate in Hx. apply in_app_or in Hx.
  destruct Hx as [Hx|Hx].
  - unfold internal_df in Hx. apply in_map_iff in Hx.
    destruct Hx as [r [E Hr]]. subst x. simpl. split.
    + intros _. split; [reflexivity|]. exists r. auto.
    + intros Hne. exfalso. apply Hne. reflexivity.
  - assert (Hsrc : source x <> supabase).
    { apply in_app_or in Hx.
      destruct Hx as [Hx|Hx]; [apply Ha in Hx|apply Hb in Hx]; congruence. }
    split; [intros Hsup; congruence|]. intros _.
    rewrite <- map_app in Hx. apply in_map_iff in Hx.
    destruct Hx as [c [E Hc]]. subst x. simpl in *.
    exists student, others, c. auto 10.
Qed.

Lemma match_tags_and_links_witness :
  exists ms m,
    fst (match_internships Sample.stop_words Sample.overlap Npy.npy_argsort
                           (as_backend Sample.w_all) "42") = matched "42" 4 ms /\
    In m ms /\ m_source m = supabase /\ m_url m = Some "".
Proof.
  eexists. eexists.
  split; [vm_compute; reflexivity|].
  split; [left; reflexivity|].
  split; [reflexivity|].
  eapply (match_tags_and_links Sample.stop_words Sample.overlap
            Npy.npy_argsort Sample.w_all "42" "42" 4).
  - vm_compute. reflexivity.
  - left. reflexivity.
  - reflexivity.
Defined.

Lemma lower_append (a b : string) : lower (a ++ b) = (lower a ++ lower b)%string.
Proof. induction a as [|c a IH]; simpl; congruence. Qed.

(** X15. Two provider candidates whose titles and descriptions differ only
    by letter case get the same text, hence the same documents for
    scoring; yet, their raw titles being different, neither is dropped as a
    duplicate of the other. *)
Theorem case_variants_kept_with_equal_text (a b : listing) :
  lower (or_empty (l_title a)) = lower (or_empty (l_title b)) ->
  lower (or_empty (l_description a)) = lower (or_empty (l_description b)) ->
  l_title a <> l_title b ->
  text (external_row a) = text (external_row b) /\
  drop_duplicates [external_row a; external_row b]
  = [external_row a; external_row b].
Proof.
  intros Ht Hd Hne. split.
  - unfold external_row. cbn [text]. rewrite !lower_append, Ht, Hd.
    reflexivity.
  - apply drop_seen_fixed; [intros x _ []|].
    constructor.
    + intros [E|[]]. apply Hne. unfold key_of in E. simpl in E. congruence.
    + constructor; [intros []|constructor].
Qed.

Lemma case_variants_kept_with_equal_text_witness :
  text (external_row (jsearch_entry 0 (Sample.jjob "Python Intern" "Build APIs")))
  = text (external_row (jsearch_entry 1 (Sample.jjob "python intern" "build apis")))
  /\
  drop_duplicates
    [external_row (jsearch_entry 0 (Sample.jjob "Python Intern" "Build APIs"));
     external_row (jsearch_entry 1 (Sample.jjob "python intern" "build apis"))]
  = [external_row (jsearch_entry 0 (Sample.jjob "Python Intern" "Build APIs"));
     external_row (jsearch_entry 1 (Sample.jjob "python intern" "build apis"))].
Proof.
  apply (case_variants_kept_with_equal_text
           (jsearch_entry 0 (Sample.jjob "Python Intern" "Build APIs"))
           (jsearch_entry 1 (Sample.jjob "python intern" "build apis")));
    [reflexivity|reflexivity|discriminate].
Defined.
